(** * InfiniteYou Gradio demo ([app.py]): a shallow embedding

    [app.py] is a request handler around an external image pipeline.  The
    module keeps two globals, [pipeline] and [loaded_pipeline_config], and
    two functions mutate them: [prepare_pipeline] and [generate_image].

    The embedding threads the module state explicitly.  Python keeps every
    mutation made before an exception is raised, so the monad used here
    returns the state in both outcomes.  Calls into the pipeline library,
    [torch.seed], [print] and [gr.Error] are recorded in a trace, and the
    answers of the pipeline library are read from an oracle that sees the
    trace so far. *)

From Stdlib Require Import ZArith List String Ascii Bool Lia QArith.
From Stdlib Require Import DecimalString DecimalZ.
Import ListNotations.

Local Open Scope string_scope.
Local Open Scope Z_scope.

Set Implicit Arguments.

(** ** Python values that appear in the handler *)

(** A raised object: the class name, [str(e)], and whether the class
    derives from [Exception].  [KeyboardInterrupt], [SystemExit] and other
    classes that derive from [BaseException] only are not instances of
    [Exception], and [except Exception] does not catch them. *)
Record exn : Type := Exn {
  exn_class : string;
  exn_str : string;
  exn_is_Exception : bool
}.

(** Reading a global name that is not bound. *)
Definition name_error : exn :=
  Exn "NameError" "name 'pipeline' is not defined" true.

(** [str(n)] for a Python int. *)
Definition py_str_int (n : Z) : string := NilZero.string_of_int (Z.to_int n).

(** A LoRA entry as built on lines 83 and 85: [[path, name, weight]].  The
    float literals of the source are dyadic rationals and are kept exactly. *)
Record lora : Type := Lora { lora_path : string; lora_name : string; lora_weight : Q }.

(** Keyword arguments of the [InfUFluxPipeline] constructor, lines 71-78. *)
Record ctor_args : Type := CtorArgs {
  base_model_path_arg : string;
  infu_model_path : string;
  insightface_root_path : string;
  image_proj_num_tokens : Z;
  infu_flux_version : string;
  model_version_arg : string
}.

(** The parsed command line, lines 25-28. *)
Record namespace : Type := Namespace {
  base_model_path : string;
  clip_encoder_path : option string
}.

(** A pipeline object: its identity and the [model_version] attribute read
    on line 64.  The class lives in [pipelines/pipeline_infu_flux.py]; its
    constructor stores the [model_version] keyword on the instance. *)
Record pipe_obj : Type := PipeObj { obj_id : nat; obj_model_version : string }.

(** The module-level name [pipeline]: [del pipeline] leaves it unbound. *)
Inductive binding : Type :=
| Unbound
| BoundNone
| BoundObj (o : pipe_obj).

(** [loaded_pipeline_config]: a dict whose three keys are fixed at module
    load and only ever re-assigned. *)
Record config : Type := Config {
  cfg_model_version : string;
  cfg_enable_realism : bool;
  cfg_enable_anti_blur : bool
}.

Module ModelVersion.
Definition STAGE_1 : string := "sim_stage1".
Definition STAGE_2 : string := "aes_stage2".
Definition DEFAULT_VERSION : string := STAGE_2.
End ModelVersion.

Definition ENABLE_ANTI_BLUR_DEFAULT : bool := false.
Definition ENABLE_REALISM_DEFAULT : bool := false.

Section App.

(** Raster images are opaque to the handler. *)
Variable Image : Type.

(** Keyword arguments of the pipeline call, lines 113-125. *)
Record call_args : Type := CallArgs {
  ca_id_image : option Image;
  ca_prompt : string;
  ca_control_image : option Image;
  ca_seed : Z;
  ca_width : Z;
  ca_height : Z;
  ca_guidance_scale : Q;
  ca_num_steps : Z;
  ca_infusenet_conditioning_scale : Q;
  ca_infusenet_guidance_start : Q;
  ca_infusenet_guidance_end : Q
}.

(** What the handler does to the outside world, in program order. *)
Inductive event : Type :=
| EvPrint (s : string)
| EvTorchSeed (drawn : Z)
| EvConstruct (a : ctor_args)
| EvDeleteAdapters (target : nat) (names : list string)
| EvLoadLoras (target : nat) (loras : list lora)
| EvCall (target : nat) (a : call_args)
| EvGrErrorObject (message : string)
| EvToast.

(** [gr.update(...)]: only the keywords given are changed on the component. *)
Record update : Type := Update { upd_value : option Image; upd_label : option string }.

(** The output component [image_output]. *)
Record widget : Type := Widget { widget_value : option Image; widget_label : string }.

(** ** Module state *)

Record world : Type := World {
  pipeline : binding;
  loaded_pipeline_config : config;
  trace : list event;
  next_id : nat
}.

Definition initial_world : world :=
  {| pipeline := BoundNone;
     loaded_pipeline_config :=
       {| cfg_model_version := "aes_stage2";
          cfg_enable_realism := false;
          cfg_enable_anti_blur := false |};
     trace := [];
     next_id := 0%nat |}.

(** ** The external collaborators

    Each answer may depend on everything that happened before. *)
Record externals : Type := Externals {
  ext_construct : list event -> ctor_args -> option exn;
  ext_delete_adapters : list event -> pipe_obj -> list string -> option exn;
  ext_load_loras : list event -> pipe_obj -> list lora -> option exn;
  ext_call : list event -> pipe_obj -> call_args -> exn + Image;
  ext_torch_seed : list event -> Z
}.

Variable X : externals.
Variable args : namespace.

(** ** State and exception monad *)

Inductive result (A : Type) : Type :=
| Ok (a : A)
| Raise (e : exn).
Arguments Raise {A} e.

Definition M (A : Type) : Type := world -> result A * world.

Definition ret {A} (a : A) : M A := fun w => (Ok a, w).
Definition raise {A} (e : exn) : M A := fun w => (Raise e, w).
Definition bind {A B} (m : M A) (k : A -> M B) : M B :=
  fun w => match m w with
           | (Ok a, w') => k a w'
           | (Raise e, w') => (Raise e, w')
           end.

(** [try: body  except Exception as e: handler]; [cont] is the code after
    the statement, reached only when [body] completes.  A raised object
    that is not an instance of [Exception] passes through. *)
Definition try_except {A B} (body : M A) (handler : exn -> M B) (cont : A -> M B) : M B :=
  fun w => match body w with
           | (Ok a, w') => cont a w'
           | (Raise e, w') =>
               if exn_is_Exception e then handler e w' else (Raise e, w')
           end.

Notation "x <- m ;; k" := (bind m (fun x => k))
  (at level 61, m at next level, right associativity).
Notation "m ;; k" := (bind m (fun _ => k))
  (at level 61, right associativity).

(** Field updates of the module state. *)
Definition log (es : list event) (w : world) : world :=
  {| pipeline := pipeline w;
     loaded_pipeline_config := loaded_pipeline_config w;
     trace := trace w ++ es;
     next_id := next_id w |}.

Definition rebind (b : binding) (w : world) : world :=
  {| pipeline := b;
     loaded_pipeline_config := loaded_pipeline_config w;
     trace := trace w;
     next_id := next_id w |}.

Definition reconfigure (c : config) (w : world) : world :=
  {| pipeline := pipeline w;
     loaded_pipeline_config := c;
     trace := trace w;
     next_id := next_id w |}.

Definition allocate (w : world) : world :=
  {| pipeline := pipeline w;
     loaded_pipeline_config := loaded_pipeline_config w;
     trace := trace w;
     next_id := S (next_id w) |}.

Definition emit (e : event) : M unit := fun w => (Ok tt, log [e] w).

(** Reading the global name [pipeline]. *)
Definition read_pipeline : M binding :=
  fun w => match pipeline w with
           | Unbound => (Raise name_error, w)
           | b => (Ok b, w)
           end.

Definition set_pipeline (b : binding) : M unit := fun w => (Ok tt, rebind b w).

Definition get_config : M config := fun w => (Ok (loaded_pipeline_config w), w).

Definition set_config (c : config) : M unit := fun w => (Ok tt, reconfigure c w).

Definition print (s : string) : M unit := emit (EvPrint s).

(** [InfUFluxPipeline(...)]: the call is recorded, then it either raises or
    yields a fresh object carrying the requested version. *)
Definition InfUFluxPipeline (a : ctor_args) : M pipe_obj :=
  fun w =>
    let w1 := log [EvConstruct a] w in
    match ext_construct X (trace w) a with
    | Some e => (Raise e, w1)
    | None =>
        (Ok {| obj_id := next_id w; obj_model_version := model_version_arg a |},
         allocate w1)
    end.

(** Attribute access on the value bound to [pipeline]. *)
Definition as_object (b : binding) (attr : string) : M pipe_obj :=
  match b with
  | BoundObj o => ret o
  | BoundNone =>
      raise (Exn "AttributeError"
                 ("'NoneType' object has no attribute '" ++ attr ++ "'") true)
  | Unbound => raise name_error
  end.

Definition delete_adapters (o : pipe_obj) (names : list string) : M unit :=
  fun w =>
    let w1 := log [EvDeleteAdapters (obj_id o) names] w in
    match ext_delete_adapters X (trace w) o names with
    | Some e => (Raise e, w1)
    | None => (Ok tt, w1)
    end.

Definition load_loras (o : pipe_obj) (loras : list lora) : M unit :=
  fun w =>
    let w1 := log [EvLoadLoras (obj_id o) loras] w in
    match ext_load_loras X (trace w) o loras with
    | Some e => (Raise e, w1)
    | None => (Ok tt, w1)
    end.

(** Truth value of the name [pipeline] in a condition. *)
Definition truthy (b : binding) : bool :=
  match b with BoundObj _ => true | _ => false end.

Definition realism_lora : lora :=
  Lora "./models/InfiniteYou/supports/optional_loras/flux_realism_lora.safetensors"
       "realism" 1.

Definition anti_blur_lora : lora :=
  Lora "./models/InfiniteYou/supports/optional_loras/flux_anti_blur_lora.safetensors"
       "anti_blur" 1.

(** The list [loras] of lines 81-85. *)
Definition selected_loras (enable_realism enable_anti_blur : bool) : list lora :=
  (if enable_realism then [realism_lora] else [])
    ++ (if enable_anti_blur then [anti_blur_lora] else []).

Definition model_path_of (model_version : string) : string :=
  "./models/InfiniteYou/infu_flux_v1.0/" ++ model_version.

Definition ctor_args_of (model_version : string) : ctor_args :=
  {| base_model_path_arg := base_model_path args;
     infu_model_path := model_path_of model_version;
     insightface_root_path := "./models/InfiniteYou/supports/insightface";
     image_proj_num_tokens := 8;
     infu_flux_version := "v1.0";
     model_version_arg := model_version |}.

(** Lines 64-78. *)
Definition rebuild_if_needed (model_version : string) : M unit :=
  p <- read_pipeline ;;
  if match p with
     | BoundObj o => negb (obj_model_version o =? model_version)%string
     | _ => true
     end
  then
    set_pipeline Unbound ;;
    print ("loading model from " ++ model_path_of model_version) ;;
    print ("loading flux model from " ++ base_model_path args) ;;
    o <- InfUFluxPipeline (ctor_args_of model_version) ;;
    set_pipeline (BoundObj o)
  else ret tt.

(** Lines 80-86. *)
Definition reload_adapters (enable_realism enable_anti_blur : bool) : M unit :=
  p <- read_pipeline ;;
  o <- as_object p "pipe" ;;
  delete_adapters o ["realism"; "anti_blur"] ;;
  p <- read_pipeline ;;
  o <- as_object p "load_loras" ;;
  load_loras o (selected_loras enable_realism enable_anti_blur).

(** The condition of lines 52-57, once [pipeline] has been read. *)
Definition up_to_date (p : binding) (cfg : config) (model_version : string)
    (enable_realism enable_anti_blur : bool) : bool :=
  truthy p
  && Bool.eqb (cfg_enable_realism cfg) enable_realism
  && Bool.eqb (cfg_enable_anti_blur cfg) enable_anti_blur
  && (model_version =? cfg_model_version cfg)%string.

(** Lines 49-86. *)
Definition prepare_pipeline (model_version : string)
    (enable_realism enable_anti_blur : bool) : M unit :=
  p <- read_pipeline ;;
  cfg <- get_config ;;
  if up_to_date p cfg model_version enable_realism enable_anti_blur
  then ret tt
  else
    cfg <- get_config ;;
    set_config {| cfg_model_version := cfg_model_version cfg;
                  cfg_enable_realism := enable_realism;
                  cfg_enable_anti_blur := cfg_enable_anti_blur cfg |} ;;
    cfg <- get_config ;;
    set_config {| cfg_model_version := cfg_model_version cfg;
                  cfg_enable_realism := cfg_enable_realism cfg;
                  cfg_enable_anti_blur := enable_anti_blur |} ;;
    cfg <- get_config ;;
    set_config {| cfg_model_version := model_version;
                  cfg_enable_realism := cfg_enable_realism cfg;
                  cfg_enable_anti_blur := cfg_enable_anti_blur cfg |} ;;
    rebuild_if_needed model_version ;;
    reload_adapters enable_realism enable_anti_blur.

(** [torch.seed()]. *)
Definition torch_seed : M Z :=
  fun w => let t := ext_torch_seed X (trace w) in (Ok t, log [EvTorchSeed t] w).

(** Calling the value bound to [pipeline], lines 113-125. *)
Definition call_pipeline (a : call_args) : M Image :=
  p <- read_pipeline ;;
  match p with
  | BoundObj o =>
      fun w =>
        let w1 := log [EvCall (obj_id o) a] w in
        match ext_call X (trace w) o a with
        | inl e => (Raise e, w1)
        | inr img => (Ok img, w1)
        end
  | _ => raise (Exn "TypeError" "'NoneType' object is not callable" true)
  end.

(** [gr.Error(msg)] as an expression statement: the exception object is
    built and dropped; nothing is raised. *)
Definition gr_Error (message : string) : M unit := emit (EvGrErrorObject message).

Definition gr_update_noop : update := {| upd_value := None; upd_label := None |}.

Definition seed_label (seed : Z) : string :=
  "Generated image, seed = " ++ py_str_int seed.

(** The keywords of lines 114-124, from the parameters of [generate_image]
    in their positional order. *)
Definition kwargs
    (input_image control_image : option Image)
    (prompt : string)
    (seed width height : Z)
    (guidance_scale : Q)
    (num_steps : Z)
    (infusenet_conditioning_scale infusenet_guidance_start infusenet_guidance_end : Q)
  : call_args :=
  {| ca_id_image := input_image;
     ca_prompt := prompt;
     ca_control_image := control_image;
     ca_seed := seed;
     ca_width := width;
     ca_height := height;
     ca_guidance_scale := guidance_scale;
     ca_num_steps := num_steps;
     ca_infusenet_conditioning_scale := infusenet_conditioning_scale;
     ca_infusenet_guidance_start := infusenet_guidance_start;
     ca_infusenet_guidance_end := infusenet_guidance_end |}.

(** Lines 109-110. *)
Definition resolve_seed (seed : Z) : M Z :=
  if seed =? 0
  then t <- torch_seed ;; ret (Z.land t 0xFFFFFFFF)
  else ret seed.

(** Lines 89-131, arguments in the positional order of the source. *)
Definition generate_image
    (input_image control_image : option Image)
    (prompt : string)
    (seed width height : Z)
    (guidance_scale : Q)
    (num_steps : Z)
    (infusenet_conditioning_scale infusenet_guidance_start infusenet_guidance_end : Q)
    (enable_realism enable_anti_blur : bool)
    (model_version : string) : M update :=
  prepare_pipeline model_version enable_realism enable_anti_blur ;;
  seed <- resolve_seed seed ;;
  try_except
    (call_pipeline
       (kwargs input_image control_image prompt seed width height guidance_scale
               num_steps infusenet_conditioning_scale infusenet_guidance_start
               infusenet_guidance_end))
    (fun e =>
       print (exn_str e) ;;
       gr_Error ("An error occurred: " ++ exn_str e) ;;
       ret gr_update_noop)
    (fun image =>
       ret {| upd_value := Some image; upd_label := Some (seed_label seed) |}).

(** Lines 134-135. *)
Definition generate_examples
    (id_image control_image : option Image)
    (prompt_text : string) (seed : Z)
    (enable_realism enable_anti_blur : bool)
    (model_version : string) : M update :=
  generate_image id_image control_image prompt_text seed 864 1152 3.5 30 1.0 0.0 1.0
                 enable_realism enable_anti_blur model_version.

(** ** The click binding, lines 205-225

    [inputs] lists the components in the positional order of
    [generate_image]; [outputs] is [image_output]. *)
Record request : Type := Request {
  ui_id_image : option Image;
  ui_control_image : option Image;
  ui_prompt_text : string;
  ui_seed : Z;
  ui_width : Z;
  ui_height : Z;
  ui_guidance_scale : Q;
  ui_num_steps : Z;
  ui_infusenet_conditioning_scale : Q;
  ui_infusenet_guidance_start : Q;
  ui_infusenet_guidance_end : Q;
  ui_enable_realism : bool;
  ui_enable_anti_blur : bool;
  ui_model_version : string
}.

Definition handle (r : request) : M update :=
  generate_image (ui_id_image r) (ui_control_image r) (ui_prompt_text r)
                 (ui_seed r) (ui_width r) (ui_height r) (ui_guidance_scale r)
                 (ui_num_steps r) (ui_infusenet_conditioning_scale r)
                 (ui_infusenet_guidance_start r) (ui_infusenet_guidance_end r)
                 (ui_enable_realism r) (ui_enable_anti_blur r) (ui_model_version r).

Definition apply_update (u : update) (out : widget) : widget :=
  {| widget_value := match upd_value u with
                     | Some v => Some v
                     | None => widget_value out
                     end;
     widget_label := match upd_label u with
                     | Some l => l
                     | None => widget_label out
                     end |}.

(** The hosting framework around a handler: a returned update is applied to
    the output component; an instance of [Exception] that leaves the handler
    is caught by the framework and shown to the user as an error toast,
    and the output keeps its value.  With [launch()] as on line 263 the
    toast does not carry [str(e)].  Other raised objects are not caught by
    the framework: no toast is logged for them. *)
Definition on_click (r : request) (out : widget) (w : world) : widget * world :=
  match handle r w with
  | (Ok u, w1) => (apply_update u out, w1)
  | (Raise e, w1) => (out, if exn_is_Exception e then log [EvToast] w1 else w1)
  end.

(** The preset of the example helper, field by field as the specification
    names them: width 864, height 1152, guidance scale 3.5, 30 steps,
    conditioning scale 1.0, guidance window from 0.0 to 1.0. *)
Definition example_preset
    (id_image control_image : option Image) (prompt_text : string) (seed : Z)
    (enable_realism enable_anti_blur : bool) (model_version : string) : request :=
  {| ui_id_image := id_image;
     ui_control_image := control_image;
     ui_prompt_text := prompt_text;
     ui_seed := seed;
     ui_width := 864;
     ui_height := 1152;
     ui_guidance_scale := 3.5;
     ui_num_steps := 30;
     ui_infusenet_conditioning_scale := 1.0;
     ui_infusenet_guidance_start := 0.0;
     ui_infusenet_guidance_end := 1.0;
     ui_enable_realism := enable_realism;
     ui_enable_anti_blur := enable_anti_blur;
     ui_model_version := model_version |}.

(** Line 260. *)
Definition startup : M unit :=
  prepare_pipeline ModelVersion.DEFAULT_VERSION ENABLE_REALISM_DEFAULT
                   ENABLE_ANTI_BLUR_DEFAULT.

(** The life of the module: line 260 runs once when the module is loaded,
    and the server is launched only when it returned; from then on clicks
    are handled one after the other. *)
Inductive serving : world -> Prop :=
| serving_boot (w : world) :
    startup initial_world = (Ok tt, w) -> serving w
| serving_click (r : request) (out : widget) (w : world) :
    serving w -> serving (snd (on_click r out w)).

(** ** Observations on traces *)

Definition is_call (e : event) : bool :=
  match e with EvCall _ _ => true | _ => false end.

Definition is_adapter_call (e : event) : bool :=
  match e with EvDeleteAdapters _ _ | EvLoadLoras _ _ => true | _ => false end.

Definition is_toast (e : event) : bool :=
  match e with EvToast => true | _ => false end.

Definition is_construct (e : event) : bool :=
  match e with EvConstruct _ => true | _ => false end.

Definition is_load_loras (e : event) : bool :=
  match e with EvLoadLoras _ _ => true | _ => false end.

Definition is_torch_seed (e : event) : bool :=
  match e with EvTorchSeed _ => true | _ => false end.

Definition count (p : event -> bool) (tr : list event) : nat :=
  List.length (List.filter p tr).

(** The loaded configuration as the triple a caller asks for. *)
Definition requested (model_version : string) (enable_realism enable_anti_blur : bool)
  : config :=
  {| cfg_model_version := model_version;
     cfg_enable_realism := enable_realism;
     cfg_enable_anti_blur := enable_anti_blur |}.

(** Events that only the configuration step produces. *)
Definition is_config_event (e : event) : bool :=
  match e with
  | EvPrint _ | EvConstruct _ | EvDeleteAdapters _ _ | EvLoadLoras _ _ => true
  | _ => false
  end.

(** What the [except] branch of lines 126-129 logs for exception [e]. *)
Definition caught_events (e : exn) : list event :=
  [EvPrint (exn_str e); EvGrErrorObject ("An error occurred: " ++ exn_str e)].

(** The two names passed to [delete_adapters] on line 80. *)
Definition adapter_names : list string := ["realism"; "anti_blur"].

(** The two lines printed before the constructor runs, lines 68-69. *)
Definition loading_prints (model_version : string) : list event :=
  [EvPrint ("loading model from " ++ model_path_of model_version);
   EvPrint ("loading flux model from " ++ base_model_path args)].

(** Everything a rebuild logs up to and including the constructor call. *)
Definition rebuild_events (model_version : string) : list event :=
  loading_prints model_version ++ [EvConstruct (ctor_args_of model_version)].

(** The adapter calls of lines 80-86 on object [o]. *)
Definition delete_event (o : pipe_obj) : event :=
  EvDeleteAdapters (obj_id o) adapter_names.

Definition load_event (o : pipe_obj) (enable_realism enable_anti_blur : bool) : event :=
  EvLoadLoras (obj_id o) (selected_loras enable_realism enable_anti_blur).

(** ** Consistency of the two globals

    Whenever [pipeline] holds an object, the object was built for the
    version recorded in [loaded_pipeline_config], and its identity was handed
    out before. *)
Definition consistent (w : world) : Prop :=
  match pipeline w with
  | BoundObj o =>
      obj_model_version o = cfg_model_version (loaded_pipeline_config w)
      /\ (obj_id o < next_id w)%nat
  | _ => True
  end.

End App.

Arguments Raise {A} e.
Arguments initial_world {Image}.
Arguments EvPrint {Image} s.
Arguments EvTorchSeed {Image} drawn.
Arguments EvConstruct {Image} a.
Arguments EvDeleteAdapters {Image} target names.
Arguments EvLoadLoras {Image} target loras.
Arguments EvGrErrorObject {Image} message.
Arguments EvToast {Image}.
Arguments loading_prints {Image} args model_version.
Arguments rebuild_events {Image} args model_version.
Arguments delete_event {Image} o.
Arguments is_toast {Image} e.
Arguments is_construct {Image} e.
Arguments is_load_loras {Image} e.
Arguments is_torch_seed {Image} e.
Arguments count {Image} p tr.
Arguments is_config_event {Image} e.
Arguments caught_events {Image} e.
Arguments is_call {Image} e.
Arguments is_adapter_call {Image} e.
Arguments load_event {Image} o enable_realism enable_anti_blur.
Arguments gr_update_noop {Image}.

(** ** Concrete collaborators, used to run the model *)

Module Concrete.

(** A stand-in raster type and one picture. *)
Definition image : Type := list Z.
Definition picture : image := [255; 0; 255].

Definition cli : namespace :=
  {| base_model_path := "black-forest-labs/FLUX.1-dev"; clip_encoder_path := None |}.

Definition cli_clip : namespace :=
  {| base_model_path := "black-forest-labs/FLUX.1-dev";
     clip_encoder_path := Some "openai/clip-vit-large-patch14" |}.

(** Every collaborator call succeeds; [torch.seed()] draws [drawn]. *)
Definition healthy (drawn : Z) : externals image :=
  {| ext_construct := fun _ _ => None;
     ext_delete_adapters := fun _ _ _ => None;
     ext_load_loras := fun _ _ _ => None;
     ext_call := fun _ _ _ => inr picture;
     ext_torch_seed := fun _ => drawn |}.

Definition out_of_memory : exn := Exn "RuntimeError" "CUDA out of memory" true.
Definition missing_file : exn :=
  Exn "FileNotFoundError" "No such file or directory" true.
Definition interrupt : exn := Exn "KeyboardInterrupt" "" false.

(** The inference call raises. *)
Definition failing_call : externals image :=
  {| ext_construct := fun _ _ => None;
     ext_delete_adapters := fun _ _ _ => None;
     ext_load_loras := fun _ _ _ => None;
     ext_call := fun _ _ _ => inl out_of_memory;
     ext_torch_seed := fun _ => 7 |}.

(** Loading adapter weights raises. *)
Definition failing_loras : externals image :=
  {| ext_construct := fun _ _ => None;
     ext_delete_adapters := fun _ _ _ => None;
     ext_load_loras := fun _ _ _ => Some missing_file;
     ext_call := fun _ _ _ => inr picture;
     ext_torch_seed := fun _ => 7 |}.

(** The form with its default values and a face photo. *)
Definition default_request (seed : Z) : request image :=
  {| ui_id_image := Some picture;
     ui_control_image := None;
     ui_prompt_text := "Portrait, 4K, high quality, cinematic";
     ui_seed := seed;
     ui_width := 864;
     ui_height := 1152;
     ui_guidance_scale := 3.5;
     ui_num_steps := 30;
     ui_infusenet_conditioning_scale := 1.0;
     ui_infusenet_guidance_start := 0.0;
     ui_infusenet_guidance_end := 1.0;
     ui_enable_realism := false;
     ui_enable_anti_blur := false;
     ui_model_version := ModelVersion.DEFAULT_VERSION |}.

(** The state in which requests arrive: after line 260 has run. *)
Definition booted : world image := snd (startup (healthy 7) cli initial_world).

Definition blank : widget image := {| widget_value := None; widget_label := "Generated Image" |}.

(** The inference call is interrupted. *)
Definition interrupted_call : externals image :=
  {| ext_construct := fun _ _ => None;
     ext_delete_adapters := fun _ _ _ => None;
     ext_load_loras := fun _ _ _ => None;
     ext_call := fun _ _ _ => inl interrupt;
     ext_torch_seed := fun _ => 7 |}.

(** The constructor raises. *)
Definition failing_construct : externals image :=
  {| ext_construct := fun _ _ => Some missing_file;
     ext_delete_adapters := fun _ _ _ => None;
     ext_load_loras := fun _ _ _ => None;
     ext_call := fun _ _ _ => inr picture;
     ext_torch_seed := fun _ => 7 |}.

(** The running server after a switch to the other version failed in the
    constructor. *)
Definition crashed : world image :=
  snd (prepare_pipeline failing_construct cli ModelVersion.STAGE_1 false false booted).

(** Start-up in which [load_loras] raised with both adapters requested. *)
Definition half_loaded : world image :=
  snd (prepare_pipeline failing_loras cli ModelVersion.STAGE_1 true true initial_world).

End Concrete.



(** * Properties *)

Section Facts.

Variable Image : Type.
Variable X : externals Image.
Variable args : namespace.
Implicit Types (w : world Image) (o : pipe_obj) (mv : string) (r a : bool).

Ltac unfold_monad :=
  unfold bind, ret, raise, try_except, read_pipeline, get_config, set_config,
    set_pipeline, print, emit, gr_Error, torch_seed, as_object,
    delete_adapters, load_loras, InfUFluxPipeline in *.

(** ** Field updates *)

Lemma log_nil w : log [] w = w.
Proof. destruct w; unfold log; simpl; now rewrite app_nil_r. Qed.

Lemma log_log (es fs : list (event Image)) w :
  log fs (log es w) = log (es ++ fs) w.
Proof. unfold log; simpl; now rewrite app_assoc. Qed.

(** ** The early return of [prepare_pipeline] *)

Lemma up_to_date_true (p : binding) (cfg : config) mv r a :
  up_to_date p cfg mv r a = true <->
  (exists o, p = BoundObj o) /\ cfg = requested mv r a.
Proof.
  unfold up_to_date, requested. split.
  - intros H. repeat (apply andb_true_iff in H; destruct H as [H ?]).
    apply String.eqb_eq in H0. apply eqb_prop in H1, H2.
    destruct p as [| |o']; try discriminate. split; [now exists o'|].
    destruct cfg; simpl in *; congruence.
  - intros [[o ->] ->]; simpl.
    now rewrite !eqb_reflx, String.eqb_refl.
Qed.

Lemma prepare_pipeline_unbound mv r a w :
  pipeline w = Unbound ->
  prepare_pipeline X args mv r a w = (Raise name_error, w).
Proof.
  intros H. unfold prepare_pipeline. unfold_monad. now rewrite H.
Qed.

Lemma prepare_pipeline_hit mv r a w :
  up_to_date (pipeline w) (loaded_pipeline_config w) mv r a = true ->
  prepare_pipeline X args mv r a w = (Ok tt, w).
Proof.
  intros H. unfold prepare_pipeline. unfold_monad.
  destruct (pipeline w) eqn:E; try discriminate H.
  now rewrite H.
Qed.

Lemma prepare_pipeline_miss mv r a w :
  pipeline w <> Unbound ->
  up_to_date (pipeline w) (loaded_pipeline_config w) mv r a = false ->
  prepare_pipeline X args mv r a w
  = bind (rebuild_if_needed X args mv) (fun _ => reload_adapters X r a)
         (reconfigure (requested mv r a) w).
Proof.
  intros Hb H. unfold prepare_pipeline.
  unfold bind at 1. unfold read_pipeline at 1.
  destruct (pipeline w) eqn:E; [congruence| |];
    unfold bind at 1; unfold get_config at 1; rewrite H; reflexivity.
Qed.

(** ** Lines 64-78 *)

Lemma rebuild_keep mv o w :
  pipeline w = BoundObj o -> obj_model_version o = mv ->
  rebuild_if_needed X args mv w = (Ok tt, w).
Proof.
  intros H Hv. unfold rebuild_if_needed. unfold_monad.
  rewrite H, Hv, String.eqb_refl. reflexivity.
Qed.

Lemma rebuild_fresh mv w :
  pipeline w <> Unbound ->
  (forall o, pipeline w = BoundObj o -> obj_model_version o <> mv) ->
  rebuild_if_needed X args mv w
  = match ext_construct X (trace w ++ loading_prints args mv) (ctor_args_of args mv) with
    | Some e => (Raise e, log (rebuild_events args mv) (rebind Unbound w))
    | None =>
        (Ok tt,
         rebind (BoundObj {| obj_id := next_id w; obj_model_version := mv |})
                (allocate (log (rebuild_events args mv) w)))
    end.
Proof.
  intros Hb Hv. unfold rebuild_if_needed, rebuild_events. unfold_monad.
  destruct (pipeline w) as [| |o] eqn:E; [congruence| |].
  - cbn. rewrite <- app_assoc. cbn.
    destruct (ext_construct X _ _); unfold log, rebind, allocate; cbn;
      rewrite <- ?app_assoc; reflexivity.
  - specialize (Hv o eq_refl). apply String.eqb_neq in Hv. rewrite Hv. cbn.
    rewrite <- app_assoc. cbn.
    destruct (ext_construct X _ _); unfold log, rebind, allocate; cbn;
      rewrite <- ?app_assoc; reflexivity.
Qed.

(** ** Lines 80-86 *)

Lemma reload_adapters_obj r a o w :
  pipeline w = BoundObj o ->
  reload_adapters X r a w
  = match ext_delete_adapters X (trace w) o adapter_names with
    | Some e => (Raise e, log [delete_event o] w)
    | None =>
        match ext_load_loras X (trace w ++ [delete_event o])
                             o (selected_loras r a) with
        | Some e => (Raise e, log [delete_event o; load_event o r a] w)
        | None => (Ok tt, log [delete_event o; load_event o r a] w)
        end
    end.
Proof.
  intros H. unfold reload_adapters, adapter_names, delete_event, load_event.
  unfold_monad. rewrite H. cbn.
  destruct (ext_delete_adapters X _ _ _); [reflexivity|].
  cbn. rewrite H. cbn.
  destruct (ext_load_loras X _ _ _); rewrite log_log; reflexivity.
Qed.

(** ** The two slow paths of [prepare_pipeline] *)

Lemma prepare_pipeline_reload mv r a o w :
  pipeline w = BoundObj o -> obj_model_version o = mv ->
  up_to_date (pipeline w) (loaded_pipeline_config w) mv r a = false ->
  prepare_pipeline X args mv r a w
  = reload_adapters X r a (reconfigure (requested mv r a) w).
Proof.
  intros Hp Hv Hu. rewrite prepare_pipeline_miss by congruence.
  unfold bind. now rewrite (@rebuild_keep mv o).
Qed.

Lemma prepare_pipeline_rebuild mv r a w :
  pipeline w <> Unbound ->
  (forall o, pipeline w = BoundObj o -> obj_model_version o <> mv) ->
  up_to_date (pipeline w) (loaded_pipeline_config w) mv r a = false ->
  prepare_pipeline X args mv r a w
  = match ext_construct X (trace w ++ loading_prints args mv) (ctor_args_of args mv) with
    | Some e =>
        (Raise e,
         log (rebuild_events args mv) (rebind Unbound (reconfigure (requested mv r a) w)))
    | None =>
        reload_adapters X r a
          (rebind (BoundObj {| obj_id := next_id w; obj_model_version := mv |})
             (allocate (log (rebuild_events args mv)
                            (reconfigure (requested mv r a) w))))
    end.
Proof.
  intros Hp Hv Hu. rewrite prepare_pipeline_miss by congruence.
  unfold bind. rewrite rebuild_fresh by assumption. cbn.
  destruct (ext_construct X _ _); reflexivity.
Qed.

(** Splits a goal along the paths of one [prepare_pipeline] run on [w]:
    unbound name, early return, adapters only, rebuild. *)
Ltac prepare_paths mv r a w :=
  let Ep := fresh "Ep" in
  let Eu := fresh "Eu" in
  let Ev := fresh "Ev" in
  destruct (pipeline w) as [| |?o] eqn:Ep;
  [ rewrite (@prepare_pipeline_unbound mv r a w Ep)
  | destruct (up_to_date (pipeline w) (loaded_pipeline_config w) mv r a) eqn:Eu;
    [ rewrite (@prepare_pipeline_hit mv r a w Eu)
    | rewrite (@prepare_pipeline_rebuild mv r a w);
      [ | congruence | intros ? ?; congruence | exact Eu ] ]
  | destruct (up_to_date (pipeline w) (loaded_pipeline_config w) mv r a) eqn:Eu;
    [ rewrite (@prepare_pipeline_hit mv r a w Eu)
    | match goal with
      | Ep : pipeline w = BoundObj ?o |- _ =>
          destruct (String.eqb_spec (obj_model_version o) mv) as [Ev|Ev];
          [ rewrite (@prepare_pipeline_reload mv r a o w Ep Ev Eu)
          | rewrite (@prepare_pipeline_rebuild mv r a w);
            [ | congruence | intros ? ?; congruence | exact Eu ] ]
      end ] ].

(** Splits the goal along the answers of the collaborators. *)
Ltac collaborator_answers :=
  repeat match goal with
         | |- context [ext_construct X ?t ?c] =>
             destruct (ext_construct X t c) eqn:?
         | |- context [reload_adapters X ?r ?a ?w] =>
             erewrite (@reload_adapters_obj r a _ w) by (first [reflexivity | eassumption])
         | |- context [ext_delete_adapters X ?t ?o ?n] =>
             destruct (ext_delete_adapters X t o n) eqn:?
         | |- context [ext_load_loras X ?t ?o ?l] =>
             destruct (ext_load_loras X t o l) eqn:?
         end.

(** ** The two globals stay consistent *)

Lemma consistent_initial : consistent (@initial_world Image).
Proof. exact I. Qed.

Lemma consistent_prepare_pipeline mv r a w :
  consistent w -> consistent (snd (prepare_pipeline X args mv r a w)).
Proof.
  intros Hc. prepare_paths mv r a w; try exact Hc;
    collaborator_answers; unfold consistent in *; cbn in *;
    rewrite ?Ep in *; cbn in *; try exact I; intuition (auto with arith).
Qed.

(** ** Idempotence of the configuration step *)

Lemma prepare_pipeline_settled mv r a w :
  (exists o, pipeline w = BoundObj o) ->
  loaded_pipeline_config w = requested mv r a ->
  prepare_pipeline X args mv r a w = (Ok tt, w).
Proof.
  intros Ho Hc. apply prepare_pipeline_hit. now apply up_to_date_true.
Qed.

(** C3. Two calls of [prepare_pipeline] in a row with the same triple: the
    first call runs the constructor at most once and [load_loras] at most
    once; the second call changes nothing at all, neither the [pipeline]
    binding nor [loaded_pipeline_config] nor the trace, so it constructs
    and loads nothing; and when the first call returned, the second one
    returns too. *)
Theorem prepare_pipeline_idempotent mv r a w (res : result unit) (w1 : world Image) :
  prepare_pipeline X args mv r a w = (res, w1) ->
  (exists es, trace w1 = (trace w ++ es)%list
              /\ (count is_construct es <= 1)%nat
              /\ (count is_load_loras es <= 1)%nat)
  /\ snd (prepare_pipeline X args mv r a w1) = w1
  /\ (res = Ok tt -> prepare_pipeline X args mv r a w1 = (Ok tt, w1)).
Proof.
  revert res w1.
  prepare_paths mv r a w; collaborator_answers;
    intros res w1 H; injection H as <- <-.
  all: split; [| split].
  all: try (intros; discriminate).
  all: try (exists []; rewrite app_nil_r; cbn; auto; fail).
  all: try (eexists; split; [cbn; reflexivity | cbn; auto with arith]; fail).
  all: try (eexists; split;
            [cbn; rewrite <- app_assoc; reflexivity | cbn; auto with arith]; fail).
  all: try (rewrite prepare_pipeline_unbound by (first [reflexivity | assumption]);
            reflexivity).
  all: try (rewrite prepare_pipeline_hit by assumption; reflexivity).
  all: try (rewrite prepare_pipeline_settled by (cbn; eauto); reflexivity).
  all: try (intros _; apply prepare_pipeline_hit; assumption).
  all: try (intros _; apply prepare_pipeline_settled; cbn; eauto).
Qed.

(** ** Errors leave the configuration record ahead of the pipeline *)

(** C9. [prepare_pipeline] writes the three requested values into
    [loaded_pipeline_config] before the constructor or any adapter call
    runs.  When a call that got past the first read of [pipeline] raises,
    the record already holds the requested triple; the pipeline does not
    follow: either the name [pipeline] is left unbound, or an identical
    retry returns at once without loading anything. *)
Theorem prepare_pipeline_not_atomic mv r a w (e : exn) (w1 : world Image) :
  pipeline w <> Unbound ->
  prepare_pipeline X args mv r a w = (Raise e, w1) ->
  loaded_pipeline_config w1 = requested mv r a
  /\ (pipeline w1 = Unbound
      \/ prepare_pipeline X args mv r a w1 = (Ok tt, w1)).
Proof.
  intros Hb. revert e w1.
  prepare_paths mv r a w; collaborator_answers;
    intros e' w1 H; try discriminate H; try congruence;
    injection H as <- <-; (split; [reflexivity|]).
  all: try (left; reflexivity).
  all: right; apply prepare_pipeline_settled; cbn; eauto.
Qed.

(** ** Which adapters [selected_loras] holds *)



(** ** Toggling an adapter *)


(** ** Switching the model version *)


(** ** What the configuration step logs *)

Lemma prepare_pipeline_trace mv r a w :
  exists es, trace (snd (prepare_pipeline X args mv r a w)) = (trace w ++ es)%list
             /\ forallb is_config_event es = true.
Proof.
  prepare_paths mv r a w; collaborator_answers; cbn;
    try (exists []; now rewrite app_nil_r);
    rewrite <- ?app_assoc; cbn; eexists; split; reflexivity.
Qed.

Lemma count_app (p : event Image -> bool) (es fs : list (event Image)) :
  count p (es ++ fs) = (count p es + count p fs)%nat.
Proof. unfold count. now rewrite filter_app, length_app. Qed.

Lemma count_config_events (p : event Image -> bool) (es : list (event Image)) :
  (forall e, is_config_event e = true -> p e = false) ->
  forallb is_config_event es = true -> count p es = 0%nat.
Proof.
  intros Hp. induction es as [|e es IH]; [reflexivity|].
  cbn. intros H. apply andb_true_iff in H. destruct H as [He Hes].
  unfold count in *. cbn. rewrite (Hp e He). now apply IH.
Qed.

Lemma prepare_pipeline_count (p : event Image -> bool) mv r a w :
  (forall e, is_config_event e = true -> p e = false) ->
  count p (trace (snd (prepare_pipeline X args mv r a w))) = count p (trace w).
Proof.
  intros Hp. destruct (prepare_pipeline_trace mv r a w) as [es [-> Hes]].
  rewrite count_app, (count_config_events p es Hp Hes). lia.
Qed.

Lemma config_event_not_toast (e : event Image) :
  is_config_event e = true -> is_toast e = false.
Proof. now destruct e. Qed.

Lemma config_event_not_torch_seed (e : event Image) :
  is_config_event e = true -> is_torch_seed e = false.
Proof. now destruct e. Qed.

(** When the configuration step returns, [pipeline] holds an object. *)
Lemma prepare_pipeline_ok_bound mv r a w (w1 : world Image) :
  prepare_pipeline X args mv r a w = (Ok tt, w1) ->
  exists o, pipeline w1 = BoundObj o.
Proof.
  revert w1.
  prepare_paths mv r a w; collaborator_answers;
    intros w1 H; try discriminate H; injection H as <-; cbn; eauto.
  apply up_to_date_true in Eu. destruct Eu as [[o' Ho'] _]. congruence.
Qed.

(** After a return the guard of lines 52-57 holds for the same triple. *)
Lemma prepare_pipeline_ok_settled mv r a w (w1 : world Image) :
  prepare_pipeline X args mv r a w = (Ok tt, w1) ->
  up_to_date (pipeline w1) (loaded_pipeline_config w1) mv r a = true.
Proof.
  revert w1.
  prepare_paths mv r a w; collaborator_answers;
    intros w1 H; try discriminate H; injection H as <-;
    try assumption; apply up_to_date_true; cbn; eauto.
Qed.

(** After a raise past the first read the record holds the request. *)
Lemma prepare_pipeline_raise_config mv r a w (e : exn) (w1 : world Image) :
  pipeline w <> Unbound ->
  prepare_pipeline X args mv r a w = (Raise e, w1) ->
  loaded_pipeline_config w1 = requested mv r a.
Proof.
  intros Hb. revert e w1.
  prepare_paths mv r a w; collaborator_answers;
    intros e' w1 H; try discriminate H; try congruence;
    injection H as <- <-; reflexivity.
Qed.

(** ** Decimal rendering of the seed *)

Lemma py_str_int_inj (m n : Z) : py_str_int m = py_str_int n -> m = n.
Proof.
  unfold py_str_int. intros H.
  assert (Hn : forall z, NilZero.int_of_string (NilZero.string_of_int (Z.to_int z))
                         = Some (Z.to_int z)).
  { intros z. apply NilZero.isi; destruct z; cbn; try discriminate;
      intros E; injection E as E; now apply DecimalPos.Unsigned.to_uint_nonnil in E. }
  apply DecimalZ.to_int_inj.
  assert (E : Some (Z.to_int m) = Some (Z.to_int n)) by (rewrite <- !Hn; now rewrite H).
  now injection E.
Qed.

Lemma seed_label_inj (m n : Z) : seed_label m = seed_label n -> m = n.
Proof.
  unfold seed_label. intros H. apply py_str_int_inj.
  cbn in H. now repeat injection H as H.
Qed.

(** The mask of line 110 keeps a drawn value inside 32 bits. *)
Lemma mask_range (t : Z) : 0 <= Z.land t 0xFFFFFFFF <= 2 ^ 32 - 1.
Proof.
  change 0xFFFFFFFF with (Z.ones 32). rewrite Z.land_ones by lia.
  pose proof (Z.mod_pos_bound t (2 ^ 32) ltac:(lia)). lia.
Qed.

(** ** One generation request *)

Section Generation.

Variables (input_image control_image : option Image) (prompt : string).
Variables (width height : Z) (guidance_scale : Q) (num_steps : Z).
Variables (conditioning_scale guidance_start guidance_end : Q).
Variables (enable_realism enable_anti_blur : bool) (model_version : string).

Lemma generate_image_config_error (seed : Z) w (e : exn) (wp : world Image) :
  prepare_pipeline X args model_version enable_realism enable_anti_blur w = (Raise e, wp) ->
  generate_image X args input_image control_image prompt seed width height
                 guidance_scale num_steps conditioning_scale guidance_start
                 guidance_end enable_realism enable_anti_blur model_version w
  = (Raise e, wp).
Proof.
  intros H. unfold generate_image. unfold bind at 1. now rewrite H.
Qed.

Lemma generate_image_after_prepare (seed : Z) w (wp : world Image) o :
  prepare_pipeline X args model_version enable_realism enable_anti_blur w = (Ok tt, wp) ->
  pipeline wp = BoundObj o ->
  generate_image X args input_image control_image prompt seed width height
                 guidance_scale num_steps conditioning_scale guidance_start
                 guidance_end enable_realism enable_anti_blur model_version w
  = let drawn := ext_torch_seed X (trace wp) in
    let s := if seed =? 0 then Z.land drawn 0xFFFFFFFF else seed in
    let ws := if seed =? 0 then log [EvTorchSeed drawn] wp else wp in
    let kw := kwargs input_image control_image prompt s width height guidance_scale
                     num_steps conditioning_scale guidance_start guidance_end in
    match ext_call X (trace ws) o kw with
    | inr img =>
        (Ok {| upd_value := Some img; upd_label := Some (seed_label s) |},
         log [EvCall (obj_id o) kw] ws)
    | inl e =>
        if exn_is_Exception e
        then (Ok gr_update_noop, log (EvCall (obj_id o) kw :: caught_events e) ws)
        else (Raise e, log [EvCall (obj_id o) kw] ws)
    end.
Proof.
  intros H Hp. unfold generate_image. unfold bind at 1. rewrite H.
  unfold resolve_seed, caught_events.
  destruct (seed =? 0); unfold_monad; unfold call_pipeline; unfold_monad;
    cbn; rewrite Hp; cbn;
    (destruct (ext_call X _ _ _) as [e|img]; [destruct (exn_is_Exception e)|]);
    cbn; rewrite ?log_log; reflexivity.
Qed.

(** C6. A request with seed [S <> 0].  [torch.seed] is not called.  When the
    configuration step raises, so does the request and the pipeline is not
    called.  Otherwise the pipeline is called once, with [seed=S]; when it
    returns an image the label of the update is
    ["Generated image, seed = " ++ str(S)], and no other seed gives that
    label.  When the call raises, an instance of [Exception] is caught
    and the update is empty; any other raised object leaves the function. *)
Theorem nonzero_seed_is_passed_unchanged (S : Z) w (res : result (update Image))
    (w1 : world Image) :
  S <> 0 ->
  generate_image X args input_image control_image prompt S width height
                 guidance_scale num_steps conditioning_scale guidance_start
                 guidance_end enable_realism enable_anti_blur model_version w
  = (res, w1) ->
  let kw := kwargs input_image control_image prompt S width height guidance_scale
                   num_steps conditioning_scale guidance_start guidance_end in
  ca_seed kw = S
  /\ count is_torch_seed (trace w1) = count is_torch_seed (trace w)
  /\ (forall e wp,
        prepare_pipeline X args model_version enable_realism enable_anti_blur w
        = (Raise e, wp) ->
        res = Raise e /\ w1 = wp)
  /\ (forall wp,
        prepare_pipeline X args model_version enable_realism enable_anti_blur w
        = (Ok tt, wp) ->
        exists o,
          pipeline wp = BoundObj o
          /\ ((exists img,
                  ext_call X (trace wp) o kw = inr img
                  /\ res = Ok {| upd_value := Some img;
                                 upd_label := Some ("Generated image, seed = "
                                                      ++ py_str_int S) |}
                  /\ trace w1 = (trace wp ++ [EvCall (obj_id o) kw])%list)
              \/ (exists e,
                     ext_call X (trace wp) o kw = inl e
                     /\ ((exn_is_Exception e = true
                          /\ res = Ok gr_update_noop
                          /\ trace w1 = (trace wp ++ EvCall (obj_id o) kw
                                                  :: caught_events e)%list)
                         \/ (exn_is_Exception e = false
                             /\ res = Raise e
                             /\ trace w1 = (trace wp ++ [EvCall (obj_id o) kw])%list)))))
  /\ (forall S', seed_label S' = seed_label S -> S' = S).
Proof.
  intros HS H kw. apply Z.eqb_neq in HS.
  split; [reflexivity|].
  split; [| split; [| split; [| intros S'; apply seed_label_inj]]].
  - destruct (prepare_pipeline X args model_version enable_realism enable_anti_blur w)
      as [[[]|e] wp] eqn:Hprep.
    + destruct (@prepare_pipeline_ok_bound _ _ _ _ _ Hprep) as [o Ho].
      rewrite (@generate_image_after_prepare S _ _ _ Hprep Ho) in H. rewrite HS in H.
      cbv zeta in H.
      pose proof (@prepare_pipeline_count is_torch_seed model_version enable_realism
                    enable_anti_blur w config_event_not_torch_seed) as Hc.
      rewrite Hprep in Hc. cbn in Hc. rewrite <- Hc.
      (destruct (ext_call X _ _ _) as [e|img]; [destruct (exn_is_Exception e)|]);
        injection H as <- <-; cbn [trace log];
        rewrite count_app; cbn; lia.
    + rewrite (@generate_image_config_error S _ _ _ Hprep) in H. injection H as <- <-.
      pose proof (@prepare_pipeline_count is_torch_seed model_version enable_realism
                    enable_anti_blur w config_event_not_torch_seed) as Hc.
      now rewrite Hprep in Hc.
  - intros e wp Hprep. rewrite (@generate_image_config_error S _ _ _ Hprep) in H.
    injection H as <- <-. now split.
  - intros wp Hprep.
    destruct (@prepare_pipeline_ok_bound _ _ _ _ _ Hprep) as [o Ho].
    rewrite (@generate_image_after_prepare S _ _ _ Hprep Ho) in H. rewrite HS in H.
    cbv zeta in H. fold kw in H. exists o. split; [exact Ho|].
    destruct (ext_call X (trace wp) o kw) as [e|img];
      [destruct (exn_is_Exception e) eqn:He|]; injection H as <- <-.
    + right. exists e. split; [reflexivity|]. left. repeat split. exact He.
    + right. exists e. split; [reflexivity|]. right. repeat split. exact He.
    + left. exists img. repeat split.
Qed.

(** C2, as the code has it.  A request with seed 0 whose configuration step
    returned.  [torch.seed()] is called once and its value [drawn] is cut
    to 32 bits: [resolved = drawn & 0xFFFFFFFF], which lies in
    [0, 2^32 - 1].  The pipeline is called once, with [seed=resolved]; when
    it returns an image the label of the update is
    ["Generated image, seed = " ++ str(resolved)].  When the call raises,
    an instance of [Exception] is caught and the update is empty; any other
    raised object leaves the function. *)
Theorem zero_seed_is_drawn_and_masked w (res : result (update Image))
    (w1 wp : world Image) :
  generate_image X args input_image control_image prompt 0 width height
                 guidance_scale num_steps conditioning_scale guidance_start
                 guidance_end enable_realism enable_anti_blur model_version w
  = (res, w1) ->
  prepare_pipeline X args model_version enable_realism enable_anti_blur w
  = (Ok tt, wp) ->
  let drawn := ext_torch_seed X (trace wp) in
  let resolved := Z.land drawn 0xFFFFFFFF in
  let kw := kwargs input_image control_image prompt resolved width height
                   guidance_scale num_steps conditioning_scale guidance_start
                   guidance_end in
  0 <= resolved <= 2 ^ 32 - 1
  /\ ca_seed kw = resolved
  /\ count is_torch_seed (trace w1) = S (count is_torch_seed (trace wp))
  /\ exists o,
       pipeline wp = BoundObj o
       /\ ((exists img,
               ext_call X (trace wp ++ [EvTorchSeed drawn]) o kw = inr img
               /\ res = Ok {| upd_value := Some img;
                              upd_label := Some ("Generated image, seed = "
                                                   ++ py_str_int resolved) |}
               /\ trace w1 = (trace wp ++ [EvTorchSeed drawn; EvCall (obj_id o) kw])%list)
           \/ (exists e,
                  ext_call X (trace wp ++ [EvTorchSeed drawn]) o kw = inl e
                  /\ ((exn_is_Exception e = true
                       /\ res = Ok gr_update_noop
                       /\ trace w1 = (trace wp ++ EvTorchSeed drawn
                                               :: EvCall (obj_id o) kw
                                               :: caught_events e)%list)
                      \/ (exn_is_Exception e = false
                          /\ res = Raise e
                          /\ trace w1 = (trace wp ++ [EvTorchSeed drawn;
                                                      EvCall (obj_id o) kw])%list)))).
Proof.
  intros H Hprep drawn resolved kw.
  split; [apply mask_range|]. split; [reflexivity|].
  destruct (@prepare_pipeline_ok_bound _ _ _ _ _ Hprep) as [o Ho].
  rewrite (@generate_image_after_prepare 0 _ _ _ Hprep Ho) in H.
  change (0 =? 0) with true in H. cbv zeta in H.
  match type of H with
  | context [ext_call X ?t ?o' ?k] =>
      destruct (ext_call X t o' k) as [e|img] eqn:Hcall;
        [destruct (exn_is_Exception e) eqn:He|]
  end;
    injection H as <- <-; cbn [trace log]; rewrite <- app_assoc, count_app.
  - split; [cbn; lia|]. exists o. split; [exact Ho|].
    right. exists e. split; [exact Hcall|]. left. repeat split. exact He.
  - split; [cbn; lia|]. exists o. split; [exact Ho|].
    right. exists e. split; [exact Hcall|]. right. repeat split. exact He.
  - split; [cbn; lia|]. exists o. split; [exact Ho|].
    left. exists img. repeat split. exact Hcall.
Qed.

(** X1. An instance of [Exception] raised by the pipeline call is caught:
    the handler returns the empty update, prints [str(e)], builds a
    [gr.Error] object, and leaves both globals as they were.  No toast is
    logged. *)
Lemma caught_failure (seed : Z) w (wp ws : world Image) (s : Z) o (e : exn) :
  prepare_pipeline X args model_version enable_realism enable_anti_blur w
  = (Ok tt, wp) ->
  resolve_seed X seed wp = (Ok s, ws) ->
  pipeline ws = BoundObj o ->
  ext_call X (trace ws) o
           (kwargs input_image control_image prompt s width height guidance_scale
                   num_steps conditioning_scale guidance_start guidance_end)
  = inl e ->
  exn_is_Exception e = true ->
  let kw := kwargs input_image control_image prompt s width height guidance_scale
                   num_steps conditioning_scale guidance_start guidance_end in
  let w1 := log (EvCall (obj_id o) kw :: caught_events e) ws in
  generate_image X args input_image control_image prompt seed width height
                 guidance_scale num_steps conditioning_scale guidance_start
                 guidance_end enable_realism enable_anti_blur model_version w
  = (Ok gr_update_noop, w1)
  /\ pipeline w1 = pipeline wp
  /\ loaded_pipeline_config w1 = loaded_pipeline_config wp
  /\ count is_toast (trace w1) = count is_toast (trace w).
Proof.
  intros Hprep Hseed Ho Hcall He kw w1.
  pose proof (@prepare_pipeline_count is_toast model_version enable_realism
                enable_anti_blur w config_event_not_toast) as Hn.
  rewrite Hprep in Hn. cbn [snd] in Hn.
  unfold resolve_seed in Hseed. subst w1 kw.
  destruct (seed =? 0) eqn:Hz; unfold_monad; injection Hseed as <- <-;
    cbn [pipeline log] in Ho;
    rewrite (@generate_image_after_prepare seed _ _ _ Hprep Ho), Hz;
    cbv zeta; cbn [trace log] in Hcall |- *; rewrite Hcall, He;
    (split; [reflexivity | split; [reflexivity | split; [reflexivity|]]]);
    rewrite <- ?app_assoc, count_app, Hn; cbn; lia.
Qed.

(** ** Every path through [generate_image] *)

(** The outcomes of one request, in full: either the configuration step
    raised and the request stops there, or the seed is resolved and the
    pipeline is called once; then the handler returns the image, or
    catches an instance of [Exception], or lets any other raised object
    pass. *)
Lemma generate_image_paths (seed : Z) w :
  let wp := snd (prepare_pipeline X args model_version enable_realism
                                  enable_anti_blur w) in
  let out := generate_image X args input_image control_image prompt seed width
                            height guidance_scale num_steps conditioning_scale
                            guidance_start guidance_end enable_realism
                            enable_anti_blur model_version w in
  (exists e,
      prepare_pipeline X args model_version enable_realism enable_anti_blur w
      = (Raise e, wp)
      /\ out = (Raise e, wp))
  \/ (exists o s ws,
         prepare_pipeline X args model_version enable_realism enable_anti_blur w
         = (Ok tt, wp)
         /\ pipeline wp = BoundObj o
         /\ ((seed <> 0 /\ s = seed /\ ws = wp)
             \/ (seed = 0
                 /\ s = Z.land (ext_torch_seed X (trace wp)) 0xFFFFFFFF
                 /\ ws = log [EvTorchSeed (ext_torch_seed X (trace wp))] wp))
         /\ resolve_seed X seed wp = (Ok s, ws)
         /\ let kw := kwargs input_image control_image prompt s width height
                             guidance_scale num_steps conditioning_scale
                             guidance_start guidance_end in
            (exists img,
                ext_call X (trace ws) o kw = inr img
                /\ out = (Ok {| upd_value := Some img;
                                upd_label := Some (seed_label s) |},
                          log [EvCall (obj_id o) kw] ws))
            \/ (exists e,
                   ext_call X (trace ws) o kw = inl e
                   /\ exn_is_Exception e = true
                   /\ out = (Ok gr_update_noop,
                             log (EvCall (obj_id o) kw :: caught_events e) ws))
            \/ (exists e,
                   ext_call X (trace ws) o kw = inl e
                   /\ exn_is_Exception e = false
                   /\ out = (Raise e, log [EvCall (obj_id o) kw] ws))).
Proof.
  intros wp out. subst wp out.
  destruct (prepare_pipeline X args model_version enable_realism enable_anti_blur w)
    as [[[]|e] wp] eqn:Hprep; cbn [snd].
  - right. destruct (@prepare_pipeline_ok_bound _ _ _ _ _ Hprep) as [o Ho].
    rewrite (@generate_image_after_prepare seed _ _ _ Hprep Ho). cbv zeta.
    unfold resolve_seed.
    destruct (Z.eqb_spec seed 0) as [Hz|Hz].
    + eexists o, _, _. split; [reflexivity|]. split; [exact Ho|].
      split; [right; repeat split; exact Hz|]. split; [reflexivity|].
      cbn [trace log].
      destruct (ext_call X _ _ _) as [e|img];
        [destruct (exn_is_Exception e) eqn:He;
         [right; left; exists e | right; right; exists e]
        | left; exists img]; repeat split; assumption.
    + eexists o, _, _. split; [reflexivity|]. split; [exact Ho|].
      split; [left; repeat split; exact Hz|]. split; [reflexivity|].
      destruct (ext_call X _ _ _) as [e|img];
        [destruct (exn_is_Exception e) eqn:He;
         [right; left; exists e | right; right; exists e]
        | left; exists img]; repeat split; assumption.
  - left. exists e. split; [reflexivity|].
    now apply generate_image_config_error.
Qed.

(** X2. [generate_image] raises in two cases only.  Either the
    configuration step raised: then it is the same exception, in the state
    the configuration step left, and neither [torch.seed] nor the pipeline
    was called.  Or the pipeline call raised an object that is not an
    instance of [Exception]: then it is that object, and nothing was logged
    after the call.  An instance of [Exception] raised by the pipeline call
    never leaves the function. *)
Theorem generate_image_raises_iff (seed : Z) w (e : exn) (w1 : world Image) :
  generate_image X args input_image control_image prompt seed width height
                 guidance_scale num_steps conditioning_scale guidance_start
                 guidance_end enable_realism enable_anti_blur model_version w
  = (Raise e, w1)
  <-> (prepare_pipeline X args model_version enable_realism enable_anti_blur w
       = (Raise e, w1)
       \/ exists wp o s ws,
            prepare_pipeline X args model_version enable_realism enable_anti_blur w
            = (Ok tt, wp)
            /\ pipeline wp = BoundObj o
            /\ resolve_seed X seed wp = (Ok s, ws)
            /\ ext_call X (trace ws) o
                        (kwargs input_image control_image prompt s width height
                                guidance_scale num_steps conditioning_scale
                                guidance_start guidance_end)
               = inl e
            /\ exn_is_Exception e = false
            /\ w1 = log [EvCall (obj_id o)
                                (kwargs input_image control_image prompt s width
                                        height guidance_scale num_steps
                                        conditioning_scale guidance_start
                                        guidance_end)] ws).
Proof.
  split.
  - intros H. destruct (generate_image_paths seed w) as [[e' [Hp Hg]]|Hok].
    + rewrite Hg in H. injection H as <- <-. left. exact Hp.
    + destruct Hok as [o [s [ws [Hp [Ho [_ [Hs Hg]]]]]]]. cbv zeta in Hg.
      destruct Hg as [[img [_ Hg]]|[[e' [_ [_ Hg]]]|[e' [Hc [He Hg]]]]];
        rewrite Hg in H; try discriminate H.
      injection H as <- <-. right.
      eexists _, o, s, ws. repeat split; eassumption.
  - intros [H|[wp [o [s [ws [Hp [Ho [Hs [Hc [He ->]]]]]]]]]].
    + now apply generate_image_config_error.
    + destruct (generate_image_paths seed w) as [[e' [Hp' _]]|Hok].
      * rewrite Hp in Hp'. discriminate Hp'.
      * destruct Hok as [o' [s' [ws' [Hp' [Ho' [_ [Hs' Hg]]]]]]]. cbv zeta in Hg.
        rewrite Hp in Hp', Ho', Hs'. cbn [snd] in Ho', Hs'.
        rewrite Ho in Ho'. injection Ho' as <-.
        rewrite Hs in Hs'. injection Hs' as <- <-.
        destruct Hg as [[img [Hc' _]]|[[e' [Hc' [He' _]]]|[e' [Hc' [_ Hg]]]]];
          rewrite Hc in Hc'; try discriminate Hc'.
        -- injection Hc' as <-. rewrite He in He'. discriminate He'.
        -- injection Hc' as <-. exact Hg.
Qed.

(** X3. One request calls the pipeline at most once and [torch.seed] at most
    once.  When the configuration step returned, the pipeline is called
    exactly once, and [torch.seed] exactly once if the seed is 0 and not at
    all otherwise.  When it raised, neither is called. *)
Theorem generate_image_calls_once (seed : Z) w :
  let wp := snd (prepare_pipeline X args model_version enable_realism
                                  enable_anti_blur w) in
  let w1 := snd (generate_image X args input_image control_image prompt seed width
                                height guidance_scale num_steps conditioning_scale
                                guidance_start guidance_end enable_realism
                                enable_anti_blur model_version w) in
  let returned :=
    match fst (prepare_pipeline X args model_version enable_realism
                                enable_anti_blur w) with
    | Ok _ => true
    | Raise _ => false
    end in
  count is_call (trace wp) = count is_call (trace w)
  /\ count is_call (trace w1)
     = (count is_call (trace w) + if returned then 1 else 0)%nat
  /\ count is_torch_seed (trace w1)
     = (count is_torch_seed (trace w)
        + if returned && (seed =? 0)%Z then 1 else 0)%nat.
Proof.
  intros wp w1 returned.
  assert (Hc : count is_call (trace wp) = count is_call (trace w)).
  { apply prepare_pipeline_count. now destruct e. }
  assert (Ht : count is_torch_seed (trace wp) = count is_torch_seed (trace w)).
  { apply prepare_pipeline_count. now destruct e. }
  split; [exact Hc|]. rewrite <- Hc, <- Ht. clear Hc Ht.
  subst w1 returned.
  destruct (generate_image_paths seed w) as [[e [Hp Hg]]|Hok].
  - fold wp in Hp, Hg. rewrite Hg, Hp. cbn. lia.
  - destruct Hok as [o [s [ws [Hp [_ [Hs [_ Hg]]]]]]]. cbv zeta in Hg.
    fold wp in Hp, Hs, Hg. rewrite Hp. cbn [fst andb].
    destruct Hs as [[Hz [_ ->]]|[-> [_ ->]]].
    + apply Z.eqb_neq in Hz. rewrite Hz.
      destruct Hg as [[img [_ ->]]|[[e [_ [_ ->]]]|[e [_ [_ ->]]]]];
        cbn [snd trace log]; rewrite !count_app; cbn; lia.
    + destruct Hg as [[img [_ ->]]|[[e [_ [_ ->]]]|[e [_ [_ ->]]]]];
        cbn [snd trace log]; rewrite <- ?app_assoc, !count_app; cbn; lia.
Qed.

(** X4. The update that [generate_image] returns is either the empty
    [gr.update()] or carries both an image and the label
    ["Generated image, seed = " ++ str(s)], where [s] is the seed of the
    request when that is not 0 and a value in [0, 2^32 - 1] when it is. *)
Theorem generate_image_update_shape (seed : Z) w (u : update Image)
    (w1 : world Image) :
  generate_image X args input_image control_image prompt seed width height
                 guidance_scale num_steps conditioning_scale guidance_start
                 guidance_end enable_realism enable_anti_blur model_version w
  = (Ok u, w1) ->
  u = gr_update_noop
  \/ exists img s,
       u = {| upd_value := Some img; upd_label := Some (seed_label s) |}
       /\ ((seed <> 0 /\ s = seed) \/ (seed = 0 /\ 0 <= s <= 2 ^ 32 - 1)).
Proof.
  intros H. destruct (generate_image_paths seed w) as [[e [_ Hg]]|Hok].
  - rewrite Hg in H. discriminate H.
  - destruct Hok as [o [s [ws [_ [_ [Hs [_ Hg]]]]]]]. cbv zeta in Hg.
    destruct Hg as [[img [_ Hg]]|[[e [_ [_ Hg]]]|[e [_ [_ Hg]]]]];
      rewrite Hg in H; try discriminate H; injection H as <- <-.
    + right. exists img, s. split; [reflexivity|].
      destruct Hs as [[Hz [-> _]]|[-> [-> _]]];
        [left; now split | right; split; [reflexivity | apply mask_range]].
    + now left.
Qed.

(** X5. The inference call, the seed draw and the [except] branch never
    touch the two globals: after [generate_image], [pipeline],
    [loaded_pipeline_config] and the identity counter are those the
    configuration step left. *)
Theorem generate_image_keeps_globals (seed : Z) w :
  let wp := snd (prepare_pipeline X args model_version enable_realism
                                  enable_anti_blur w) in
  let w1 := snd (generate_image X args input_image control_image prompt seed width
                                height guidance_scale num_steps conditioning_scale
                                guidance_start guidance_end enable_realism
                                enable_anti_blur model_version w) in
  pipeline w1 = pipeline wp
  /\ loaded_pipeline_config w1 = loaded_pipeline_config wp
  /\ next_id w1 = next_id wp.
Proof.
  intros wp w1. subst w1.
  destruct (generate_image_paths seed w) as [[e [_ Hg]]|Hok].
  - fold wp in Hg. rewrite Hg. now repeat split.
  - destruct Hok as [o [s [ws [_ [_ [Hs [_ Hg]]]]]]]. cbv zeta in Hg.
    fold wp in Hs, Hg.
    assert (Hws : pipeline ws = pipeline wp
                  /\ loaded_pipeline_config ws = loaded_pipeline_config wp
                  /\ next_id ws = next_id wp).
    { destruct Hs as [[_ [_ ->]]|[_ [_ ->]]]; now repeat split. }
    destruct Hg as [[img [_ ->]]|[[e [_ [_ ->]]]|[e [_ [_ ->]]]]]; exact Hws.
Qed.

(** X6. After a request that returned an update, the configuration is
    settled for its triple: the same request again skips the configuration
    step (no constructor, no adapter call) and calls the pipeline once
    more.  It returns an update unless that call raises an object that is
    not an instance of [Exception]. *)
Theorem repeated_request_skips_configuration (seed seed' : Z) w
    (u : update Image) (w1 : world Image) :
  generate_image X args input_image control_image prompt seed width height
                 guidance_scale num_steps conditioning_scale guidance_start
                 guidance_end enable_realism enable_anti_blur model_version w
  = (Ok u, w1) ->
  prepare_pipeline X args model_version enable_realism enable_anti_blur w1
  = (Ok tt, w1)
  /\ exists res w2,
       generate_image X args input_image control_image prompt seed' width height
                      guidance_scale num_steps conditioning_scale guidance_start
                      guidance_end enable_realism enable_anti_blur model_version w1
       = (res, w2)
       /\ count is_construct (trace w2) = count is_construct (trace w1)
       /\ count is_adapter_call (trace w2) = count is_adapter_call (trace w1)
       /\ count is_call (trace w2) = S (count is_call (trace w1))
       /\ ((exists u', res = Ok u')
           \/ (exists e, res = Raise e /\ exn_is_Exception e = false)).
Proof.
  intros H.
  assert (Hset : prepare_pipeline X args model_version enable_realism
                                  enable_anti_blur w1 = (Ok tt, w1)).
  { destruct (generate_image_paths seed w) as [[e [_ Hg]]|Hok].
    - rewrite Hg in H. discriminate H.
    - destruct Hok as [o [s [ws [Hp [_ [Hs [_ Hg]]]]]]]. cbv zeta in Hg.
      apply prepare_pipeline_ok_settled in Hp.
      apply prepare_pipeline_hit.
      assert (Hw : pipeline w1 = pipeline (snd (prepare_pipeline X args model_version
                                                  enable_realism enable_anti_blur w))
                   /\ loaded_pipeline_config w1
                      = loaded_pipeline_config
                          (snd (prepare_pipeline X args model_version enable_realism
                                                 enable_anti_blur w))).
      { destruct Hs as [[_ [_ ->]]|[_ [_ ->]]];
          destruct Hg as [[img [_ Hg]]|[[e [_ [_ Hg]]]|[e [_ [_ Hg]]]]];
          rewrite Hg in H; try discriminate H;
          injection H as <- <-; now split. }
      destruct Hw as [-> ->]. exact Hp. }
  split; [exact Hset|].
  destruct (generate_image_paths seed' w1) as [[e [Hp _]]|Hok].
  - rewrite Hset in Hp. discriminate Hp.
  - destruct Hok as [o [s [ws [_ [_ [Hs [_ Hg]]]]]]]. cbv zeta in Hg.
    rewrite Hset in Hs. cbn [snd] in Hs.
    destruct Hs as [[_ [_ ->]]|[_ [_ ->]]];
      destruct Hg as [[img [_ ->]]|[[e [_ [_ ->]]]|[e [_ [He ->]]]]];
      eexists _, _; (split; [reflexivity|]); cbn [trace log];
      rewrite <- ?app_assoc, !count_app; cbn;
      (split; [lia | split; [lia | split; [lia | eauto]]]).
Qed.

(** X7. A failed adapter call is not retried.  When the configuration step
    raised but left an object bound, the same request again takes the early
    return and goes on to call the pipeline, without any [delete_adapters]
    or [load_loras].  It returns an update unless that call raises an
    object that is not an instance of [Exception]. *)
Theorem failed_adapter_load_is_not_retried (seed : Z) w (e : exn)
    (w1 : world Image) o :
  pipeline w <> Unbound ->
  prepare_pipeline X args model_version enable_realism enable_anti_blur w
  = (Raise e, w1) ->
  pipeline w1 = BoundObj o ->
  prepare_pipeline X args model_version enable_realism enable_anti_blur w1
  = (Ok tt, w1)
  /\ exists res w2,
       generate_image X args input_image control_image prompt seed width height
                      guidance_scale num_steps conditioning_scale guidance_start
                      guidance_end enable_realism enable_anti_blur model_version w1
       = (res, w2)
       /\ count is_construct (trace w2) = count is_construct (trace w1)
       /\ count is_adapter_call (trace w2) = count is_adapter_call (trace w1)
       /\ count is_call (trace w2) = S (count is_call (trace w1))
       /\ ((exists u, res = Ok u)
           \/ (exists e', res = Raise e' /\ exn_is_Exception e' = false)).
Proof.
  intros Hb Hraise Ho.
  assert (Hset : prepare_pipeline X args model_version enable_realism
                                  enable_anti_blur w1 = (Ok tt, w1)).
  { apply prepare_pipeline_settled; [now exists o|].
    exact (@prepare_pipeline_raise_config _ _ _ _ _ _ Hb Hraise). }
  split; [exact Hset|].
  destruct (generate_image_paths seed w1) as [[e' [Hp _]]|Hok].
  - rewrite Hset in Hp. discriminate Hp.
  - destruct Hok as [o' [s [ws [_ [_ [Hs [_ Hg]]]]]]]. cbv zeta in Hg.
    rewrite Hset in Hs. cbn [snd] in Hs.
    destruct Hs as [[_ [_ ->]]|[_ [_ ->]]];
      destruct Hg as [[img [_ ->]]|[[e' [_ [_ ->]]]|[e' [_ [He ->]]]]];
      eexists _, _; (split; [reflexivity|]); cbn [trace log];
      rewrite <- ?app_assoc, !count_app; cbn;
      (split; [lia | split; [lia | split; [lia | eauto]]]).
Qed.

(** X8. Once the name [pipeline] is unbound, which is how a failed
    constructor leaves it, the configuration step and every request raise
    [NameError] and change nothing. *)
Theorem unbound_pipeline_is_absorbing (seed : Z) w :
  pipeline w = Unbound ->
  prepare_pipeline X args model_version enable_realism enable_anti_blur w
  = (Raise name_error, w)
  /\ generate_image X args input_image control_image prompt seed width height
                    guidance_scale num_steps conditioning_scale guidance_start
                    guidance_end enable_realism enable_anti_blur model_version w
     = (Raise name_error, w).
Proof.
  intros H.
  pose proof (@prepare_pipeline_unbound model_version enable_realism
                enable_anti_blur w H) as Hp.
  split; [exact Hp|]. now apply generate_image_config_error.
Qed.

End Generation.

(** ** More on the configuration step *)

(** X9. When [prepare_pipeline] returns from a consistent state, the two
    globals match the request: [pipeline] holds an object built for the
    requested version and [loaded_pipeline_config] is the requested triple,
    and the state is consistent again. *)
Theorem prepare_pipeline_ensures mv r a w (w1 : world Image) :
  consistent w ->
  prepare_pipeline X args mv r a w = (Ok tt, w1) ->
  (exists o, pipeline w1 = BoundObj o /\ obj_model_version o = mv)
  /\ loaded_pipeline_config w1 = requested mv r a
  /\ consistent w1.
Proof.
  intros Hc H.
  pose proof (@consistent_prepare_pipeline mv r a w Hc) as Hc1.
  rewrite H in Hc1. cbn [snd] in Hc1.
  split; [| split; [| exact Hc1]]; revert w1 H Hc1;
    prepare_paths mv r a w; collaborator_answers;
    intros w1 H Hc1; try discriminate H; injection H as <-; cbn; eauto.
  - apply up_to_date_true in Eu. destruct Eu as [[o' Ho'] _]. congruence.
  - apply up_to_date_true in Eu. destruct Eu as [[o' Ho'] Hcfg].
    exists o. split; [exact Ep|].
    unfold consistent in Hc. rewrite Ep in Hc. destruct Hc as [Hv _].
    rewrite Hv, Hcfg. reflexivity.
  - apply up_to_date_true in Eu. now destruct Eu.
  - apply up_to_date_true in Eu. now destruct Eu.
Qed.

(** X10. What one run of [prepare_pipeline] logs is one of these: nothing
    (early return, or [NameError] on an unbound name); the two log lines
    and the constructor call, which raised; or, after at most one such
    constructor call, [delete_adapters] on the bound object followed,
    unless it raised, by [load_loras] on the same object.  So a
    [load_loras] call always comes directly after [delete_adapters] on the
    same object, and a run that returns after doing work ends with it. *)
Theorem prepare_pipeline_shapes mv r a w (res : result unit) (w1 : world Image) :
  prepare_pipeline X args mv r a w = (res, w1) ->
  exists es,
    trace w1 = (trace w ++ es)%list
    /\ ((es = [] /\ (res = Ok tt \/ res = Raise name_error))
        \/ (es = rebuild_events args mv /\ exists e, res = Raise e)
        \/ (exists pre o,
               (pre = [] \/ pre = rebuild_events args mv)
               /\ pipeline w1 = BoundObj o
               /\ ((es = (pre ++ [delete_event o])%list /\ exists e, res = Raise e)
                   \/ es = (pre ++ [delete_event o; load_event o r a])%list))).
Proof.
  revert res w1.
  prepare_paths mv r a w; collaborator_answers;
    intros res w1 H; injection H as <- <-; cbn [trace log rebind allocate reconfigure].
  all: try (exists []; split; [now rewrite app_nil_r | left; split; eauto]; fail).
  all: try (eexists; split; [reflexivity | right; left; split; eauto]; fail).
  all: try (eexists; split; [reflexivity |];
            right; right; exists [], o; cbn;
            split; [now left | split; [assumption | eauto]]; fail).
  all: rewrite <- app_assoc; eexists; split; [reflexivity |];
    right; right; eexists (rebuild_events args mv), _; cbn [pipeline rebind log];
    (split; [now right | split; [reflexivity | eauto]]).
Qed.

(** X11. A constructor that raises during a rebuild costs the pipeline that
    was loaded: from a consistent state whose pipeline is [None] or was
    built for another version, [prepare_pipeline] raises the constructor's
    exception, leaves the name [pipeline] unbound, and has already written
    the requested triple. *)
Theorem failed_rebuild_unbinds mv r a w (e : exn) :
  consistent w ->
  (pipeline w = BoundNone
   \/ exists o, pipeline w = BoundObj o /\ obj_model_version o <> mv) ->
  ext_construct X (trace w ++ loading_prints args mv) (ctor_args_of args mv) = Some e ->
  exists w1,
    prepare_pipeline X args mv r a w = (Raise e, w1)
    /\ pipeline w1 = Unbound
    /\ loaded_pipeline_config w1 = requested mv r a
    /\ trace w1 = (trace w ++ rebuild_events args mv)%list
    /\ next_id w1 = next_id w.
Proof.
  intros Hc Hold Hx.
  assert (Hu : up_to_date (pipeline w) (loaded_pipeline_config w) mv r a = false).
  { destruct (up_to_date _ _ _ _ _) eqn:E; [|reflexivity].
    apply up_to_date_true in E. destruct E as [[o Ho] Hcfg].
    destruct Hold as [Hn|[o' [Ho' Hv]]]; [congruence|].
    unfold consistent in Hc. rewrite Ho' in Hc. destruct Hc as [Hm _].
    rewrite Hcfg in Hm. now contradiction Hv. }
  rewrite (@prepare_pipeline_rebuild mv r a w); [ | | | exact Hu ].
  - rewrite Hx. eexists. repeat split.
  - destruct Hold as [Hn|[o [Ho _]]]; congruence.
  - intros o Ho. destruct Hold as [Hn|[o' [Ho' Hv]]]; congruence.
Qed.

(** X12. While [pipeline] is [None] the early return is never taken: the
    two lines are printed and the constructor is called first, whatever
    [loaded_pipeline_config] says, even when it already equals the request
    as it does at module load. *)
Theorem none_always_builds mv r a w :
  pipeline w = BoundNone ->
  exists rest,
    trace (snd (prepare_pipeline X args mv r a w))
    = (trace w ++ rebuild_events args mv ++ rest)%list.
Proof.
  intros Hn.
  assert (Hu : up_to_date (pipeline w) (loaded_pipeline_config w) mv r a = false)
    by (now rewrite Hn).
  rewrite (@prepare_pipeline_rebuild mv r a w);
    [ | congruence | intros o Ho; congruence | exact Hu ].
  collaborator_answers; cbn [snd trace log rebind allocate reconfigure];
    rewrite <- ?app_assoc; eexists; reflexivity.
Qed.

(** X13. The adapters handed to [load_loras] on line 86 are among the two
    that [delete_adapters] removed on line 80, each at most once, and
    [realism] comes before [anti_blur]. *)
Theorem loaded_names_were_deleted r a :
  incl (map lora_name (selected_loras r a)) adapter_names
  /\ NoDup (map lora_name (selected_loras r a))
  /\ (List.length (selected_loras r a)
      = (if r then 1 else 0) + (if a then 1 else 0))%nat
  /\ map lora_name (selected_loras true true) = adapter_names.
Proof.
  unfold adapter_names.
  destruct r, a; cbn; repeat split;
    try (intros n Hn; cbn in *; intuition; fail);
    try discriminate;
    repeat constructor; cbn; intuition discriminate.
Qed.

(** ** Configuration steps in a row *)

(** X14. Changing the toggles and changing them back, both calls returning:
    the same object stays bound, no identity is handed out,
    [loaded_pipeline_config] is what it was, and the adapters were deleted
    and loaded twice on that object, first with the changed pair and then
    with the original one. *)
Theorem toggle_round_trip mv r0 a0 r a o w (w1 w2 : world Image) :
  pipeline w = BoundObj o ->
  consistent w ->
  loaded_pipeline_config w = requested mv r0 a0 ->
  (r, a) <> (r0, a0) ->
  prepare_pipeline X args mv r a w = (Ok tt, w1) ->
  prepare_pipeline X args mv r0 a0 w1 = (Ok tt, w2) ->
  pipeline w2 = BoundObj o
  /\ loaded_pipeline_config w2 = loaded_pipeline_config w
  /\ next_id w2 = next_id w
  /\ trace w2 = (trace w ++ [delete_event o; load_event o r a;
                              delete_event o; load_event o r0 a0])%list.
Proof.
  intros Hp Hc Hcfg Hne.
  assert (Hm : obj_model_version o = mv).
  { unfold consistent in Hc. rewrite Hp, Hcfg in Hc. now destruct Hc. }
  assert (Hu : up_to_date (pipeline w) (loaded_pipeline_config w) mv r a = false).
  { destruct (up_to_date _ _ _ _ _) eqn:E; [|reflexivity].
    apply up_to_date_true in E. destruct E as [_ E]. rewrite Hcfg in E.
    injection E as <- <-. now contradiction Hne. }
  rewrite (@prepare_pipeline_reload mv r a o w Hp Hm Hu).
  rewrite (@reload_adapters_obj r a o) by exact Hp.
  destruct (ext_delete_adapters X _ _ _); [discriminate|].
  destruct (ext_load_loras X _ _ _); [discriminate|].
  intros H. injection H as <-.
  assert (Hu1 : forall w', loaded_pipeline_config w' = requested mv r a ->
                           up_to_date (pipeline w') (loaded_pipeline_config w')
                                      mv r0 a0 = false).
  { intros w' Hw'.
    destruct (up_to_date (pipeline w') (loaded_pipeline_config w') mv r0 a0) eqn:E;
      [|reflexivity].
    apply up_to_date_true in E. destruct E as [_ E]. rewrite Hw' in E.
    injection E as <- <-. now contradiction Hne. }
  match goal with
  | |- prepare_pipeline X args mv r0 a0 ?w' = _ -> _ =>
      rewrite (@prepare_pipeline_reload mv r0 a0 o w' Hp Hm (Hu1 w' eq_refl))
  end.
  rewrite (@reload_adapters_obj r0 a0 o) by exact Hp.
  destruct (ext_delete_adapters X _ _ _); [discriminate|].
  destruct (ext_load_loras X _ _ _); [discriminate|].
  intros H. injection H as <-.
  cbn [pipeline loaded_pipeline_config next_id trace log reconfigure].
  rewrite <- app_assoc. now repeat split.
Qed.

(** X15. Nothing is cached across versions: switching to another version
    and back, both calls returning, runs the constructor twice and ends with
    a second new object, not the one that was loaded at first. *)
Theorem version_round_trip mv r a o w (w1 w2 : world Image) :
  pipeline w = BoundObj o ->
  consistent w ->
  mv <> cfg_model_version (loaded_pipeline_config w) ->
  prepare_pipeline X args mv r a w = (Ok tt, w1) ->
  prepare_pipeline X args (cfg_model_version (loaded_pipeline_config w)) r a w1
  = (Ok tt, w2) ->
  pipeline w2 = BoundObj {| obj_id := S (next_id w);
                            obj_model_version :=
                              cfg_model_version (loaded_pipeline_config w) |}
  /\ pipeline w2 <> BoundObj o
  /\ next_id w2 = S (S (next_id w))
  /\ count is_construct (trace w2) = S (S (count is_construct (trace w))).
Proof.
  intros Hp Hc Hv.
  set (mv0 := cfg_model_version (loaded_pipeline_config w)) in *.
  assert (Hm : obj_model_version o = mv0 /\ (obj_id o < next_id w)%nat).
  { unfold consistent in Hc. now rewrite Hp in Hc. }
  destruct Hm as [Hm Hi].
  assert (Hu : up_to_date (pipeline w) (loaded_pipeline_config w) mv r a = false).
  { destruct (up_to_date _ _ _ _ _) eqn:E; [|reflexivity].
    apply up_to_date_true in E. destruct E as [_ E]. unfold mv0 in Hv.
    rewrite E in Hv. now contradiction Hv. }
  rewrite (@prepare_pipeline_rebuild mv r a w);
    [ | congruence | intros o' Ho'; congruence | exact Hu ].
  collaborator_answers; intros H; try discriminate H; injection H as <-.
  match goal with
  | |- prepare_pipeline X args mv0 r a ?w' = _ -> _ =>
      rewrite (@prepare_pipeline_rebuild mv0 r a w')
  end.
  - collaborator_answers; intros H; try discriminate H; injection H as <-.
    cbn [pipeline next_id trace log rebind allocate reconfigure].
    split; [reflexivity|]. split; [| split; [reflexivity|]].
    + intros E. injection E as E. rewrite <- E in Hi. cbn in Hi. lia.
    + rewrite <- !app_assoc, !count_app. cbn. lia.
  - cbn. discriminate.
  - cbn. intros o' Ho'. injection Ho' as <-. cbn. congruence.
  - match goal with |- ?t = false => destruct t eqn:E; [|reflexivity] end.
    apply up_to_date_true in E. destruct E as [_ E]. cbn in E.
    injection E as E. now contradiction Hv.
Qed.

(** ** States in which requests arrive *)

Lemma consistent_fields w (w' : world Image) :
  pipeline w' = pipeline w ->
  loaded_pipeline_config w' = loaded_pipeline_config w ->
  next_id w' = next_id w ->
  consistent w -> consistent w'.
Proof.
  unfold consistent. now intros -> -> ->.
Qed.

Lemma prepare_pipeline_never_none mv r a w :
  pipeline w <> BoundNone ->
  pipeline (snd (prepare_pipeline X args mv r a w)) <> BoundNone.
Proof.
  intros Hn. prepare_paths mv r a w; collaborator_answers; cbn;
    try rewrite Ep; try discriminate; congruence.
Qed.

(** X16. In every state in which a request can arrive, that is after line
    260 returned and after any number of clicks handled one after the
    other, the two globals are consistent and [pipeline] is not [None]: it
    holds an object built for the version in [loaded_pipeline_config], or
    the name is unbound. *)
Theorem serving_invariant w :
  serving X args w ->
  consistent w /\ pipeline w <> BoundNone.
Proof.
  induction 1 as [w Hboot | req out w Hs [Hc Hn]].
  - unfold startup in Hboot. split.
    + pose proof (@consistent_prepare_pipeline ModelVersion.DEFAULT_VERSION
                    ENABLE_REALISM_DEFAULT ENABLE_ANTI_BLUR_DEFAULT
                    initial_world (consistent_initial)) as H.
      now rewrite Hboot in H.
    + destruct (@prepare_pipeline_ok_bound _ _ _ _ _ Hboot) as [o ->].
      discriminate.
  - pose proof (@consistent_prepare_pipeline (ui_model_version req)
                  (ui_enable_realism req) (ui_enable_anti_blur req) w Hc) as Hcp.
    pose proof (@prepare_pipeline_never_none (ui_model_version req)
                  (ui_enable_realism req) (ui_enable_anti_blur req) w Hn) as Hnp.
    assert (Hg : forall w1,
               snd (handle X args req w) = w1 ->
               pipeline w1 = pipeline (snd (prepare_pipeline X args
                                              (ui_model_version req)
                                              (ui_enable_realism req)
                                              (ui_enable_anti_blur req) w))
               /\ loaded_pipeline_config w1
                  = loaded_pipeline_config (snd (prepare_pipeline X args
                                                   (ui_model_version req)
                                                   (ui_enable_realism req)
                                                   (ui_enable_anti_blur req) w))
               /\ next_id w1 = next_id (snd (prepare_pipeline X args
                                               (ui_model_version req)
                                               (ui_enable_realism req)
                                               (ui_enable_anti_blur req) w))).
    { intros w1 <-. unfold handle.
      destruct (generate_image_paths (ui_id_image req) (ui_control_image req)
                  (ui_prompt_text req) (ui_width req) (ui_height req)
                  (ui_guidance_scale req) (ui_num_steps req)
                  (ui_infusenet_conditioning_scale req)
                  (ui_infusenet_guidance_start req)
                  (ui_infusenet_guidance_end req) (ui_enable_realism req)
                  (ui_enable_anti_blur req) (ui_model_version req)
                  (ui_seed req) w) as [[e [_ Hg]]|Hok].
      - rewrite Hg. now repeat split.
      - destruct Hok as [o [s [ws [_ [_ [Hws [_ Hg]]]]]]]. cbv zeta in Hg.
        assert (Hw : pipeline ws = pipeline (snd (prepare_pipeline X args
                                                    (ui_model_version req)
                                                    (ui_enable_realism req)
                                                    (ui_enable_anti_blur req) w))
                     /\ loaded_pipeline_config ws
                        = loaded_pipeline_config (snd (prepare_pipeline X args
                                                         (ui_model_version req)
                                                         (ui_enable_realism req)
                                                         (ui_enable_anti_blur req) w))
                     /\ next_id ws = next_id (snd (prepare_pipeline X args
                                                     (ui_model_version req)
                                                     (ui_enable_realism req)
                                                     (ui_enable_anti_blur req) w))).
        { destruct Hws as [[_ [_ ->]]|[_ [_ ->]]]; now repeat split. }
        destruct Hg as [[img [_ ->]]|[[e [_ [_ ->]]]|[e [_ [_ ->]]]]]; exact Hw. }
    unfold on_click.
    destruct (handle X args req w) as [[u|e] w1] eqn:Hh;
      destruct (Hg w1 eq_refl) as [H1 [H2 H3]]; cbn [snd].
    + split; [exact (@consistent_fields _ _ H1 H2 H3 Hcp) | now rewrite H1].
    + destruct (exn_is_Exception e);
        (split; [refine (@consistent_fields _ _ _ _ _ Hcp); cbn; assumption
                | cbn; now rewrite H1]).
Qed.

(** ** Drawing a seed *)

(** X17. Line 110 keeps the low 32 bits of the draw: for seed 0 the resolved
    seed is [drawn mod 2^32] and one draw is logged; it equals the draw when
    that already fits 32 bits, and it is 0 exactly when the draw is a
    multiple of [2^32].  Any other seed is returned as it is, without a
    draw. *)
Theorem resolve_seed_spec (seed : Z) w :
  let drawn := ext_torch_seed X (trace w) in
  (seed = 0 ->
   resolve_seed X seed w = (Ok (drawn mod 2 ^ 32), log [EvTorchSeed drawn] w)
   /\ (0 <= drawn < 2 ^ 32 -> drawn mod 2 ^ 32 = drawn)
   /\ (drawn mod 2 ^ 32 = 0 <-> exists k, drawn = k * 2 ^ 32))
  /\ (seed <> 0 -> resolve_seed X seed w = (Ok seed, w)).
Proof.
  intros drawn. split.
  - intros ->. unfold resolve_seed. cbn [Z.eqb]. unfold_monad.
    fold drawn. split; [| split].
    + change 0xFFFFFFFF with (Z.ones 32). now rewrite Z.land_ones by lia.
    + intros Hd. now apply Z.mod_small.
    + split.
      * intros Hz. exists (drawn / 2 ^ 32).
        pose proof (Z.div_mod drawn (2 ^ 32) ltac:(lia)). lia.
      * intros [k ->]. apply Z.mod_mul. lia.
  - intros Hz. unfold resolve_seed. apply Z.eqb_neq in Hz. now rewrite Hz.
Qed.

End Facts.

(** ** The example helper *)

(** C7. [generate_examples] is [generate_image] at the preset: the seven
    example fields are passed through, and the other seven arguments are
    width 864, height 1152, guidance scale 3.5, 30 steps, conditioning
    scale 1.0, guidance start 0.0 and guidance end 1.0.  Result and final
    state agree on every starting state. *)
Theorem generate_examples_is_preset (Image : Type) (X : externals Image)
    (args : namespace) (id_image control_image : option Image)
    (prompt_text : string) (seed : Z) (enable_realism enable_anti_blur : bool)
    (model_version : string) (w : world Image) :
  let q := example_preset id_image control_image prompt_text seed
                          enable_realism enable_anti_blur model_version in
  generate_examples X args id_image control_image prompt_text seed
                    enable_realism enable_anti_blur model_version w
  = generate_image X args (ui_id_image q) (ui_control_image q) (ui_prompt_text q)
                   (ui_seed q) (ui_width q) (ui_height q) (ui_guidance_scale q)
                   (ui_num_steps q) (ui_infusenet_conditioning_scale q)
                   (ui_infusenet_guidance_start q) (ui_infusenet_guidance_end q)
                   (ui_enable_realism q) (ui_enable_anti_blur q)
                   (ui_model_version q) w
  /\ generate_examples X args id_image control_image prompt_text seed
                       enable_realism enable_anti_blur model_version w
     = generate_image X args id_image control_image prompt_text seed
                      864 1152 3.5 30 1.0 0.0 1.0
                      enable_realism enable_anti_blur model_version w.
Proof.
  intros q. split; reflexivity.
Qed.

(** ** The unused command-line option *)

(** C10. Two parsed command lines with the same [base_model_path] give the
    same configuration step, the same start-up, the same handler and the
    same click, whatever their [clip_encoder_path]: results, final states
    and traces are equal. *)
Theorem clip_encoder_path_is_never_read (Image : Type) (X : externals Image)
    (args1 args2 : namespace) :
  base_model_path args1 = base_model_path args2 ->
  (forall mv r a (w : world Image),
      prepare_pipeline X args1 mv r a w = prepare_pipeline X args2 mv r a w)
  /\ (forall w : world Image, startup X args1 w = startup X args2 w)
  /\ (forall input_image control_image prompt seed width height guidance_scale
             num_steps conditioning_scale guidance_start guidance_end
             enable_realism enable_anti_blur model_version (w : world Image),
         generate_image X args1 input_image control_image prompt seed width height
                        guidance_scale num_steps conditioning_scale guidance_start
                        guidance_end enable_realism enable_anti_blur model_version w
         = generate_image X args2 input_image control_image prompt seed width height
                          guidance_scale num_steps conditioning_scale guidance_start
                          guidance_end enable_realism enable_anti_blur model_version w)
  /\ (forall (req : request Image) (out : widget Image) (w : world Image),
         on_click X args1 req out w = on_click X args2 req out w).
Proof.
  destruct args1 as [b c1], args2 as [b' c2]. cbn. intros <-.
  assert (Hprep : forall mv r a (w : world Image),
             prepare_pipeline X (Namespace b c1) mv r a w
             = prepare_pipeline X (Namespace b c2) mv r a w)
    by reflexivity.
  repeat split; intros; reflexivity.
Qed.

(** ** Errors and what the user sees *)

(** A configuration error that is an instance of [Exception] leaves the
    handler, and the framework shows it: exactly one toast is logged and the
    output keeps its value. *)
Lemma config_error_shows_toast (Image : Type) (X : externals Image)
    (args : namespace) (req : request Image) (out : widget Image)
    (w wp : world Image) (e : exn) :
  prepare_pipeline X args (ui_model_version req) (ui_enable_realism req)
                   (ui_enable_anti_blur req) w = (Raise e, wp) ->
  exn_is_Exception e = true ->
  on_click X args req out w = (out, log [EvToast] wp)
  /\ count is_toast (trace (snd (on_click X args req out w)))
     = S (count is_toast (trace w)).
Proof.
  intros H He.
  assert (E : on_click X args req out w = (out, log [EvToast] wp)).
  { unfold on_click, handle.
    erewrite generate_image_config_error; [now rewrite He | exact H]. }
  split; [exact E|]. rewrite E. cbn [snd trace log].
  rewrite count_app.
  pose proof (@prepare_pipeline_count _ X args is_toast (ui_model_version req)
                (ui_enable_realism req) (ui_enable_anti_blur req) w
                (@config_event_not_toast _)) as Hn.
  rewrite H in Hn. cbn [snd] in Hn. rewrite Hn. cbn. lia.
Qed.

(** C1, on the running server with the form defaults and seed 5, when the
    pipeline call raises [RuntimeError("CUDA out of memory")].  The
    exception is caught: the handler returns the empty update and the
    output component keeps its value.  The message is printed and a
    [gr.Error] object is built but not raised, so the framework shows no
    toast: the number of toasts after the click is the number before it. *)
Theorem failed_generation_shows_no_toast :
  handle Concrete.failing_call Concrete.cli (Concrete.default_request 5)
         Concrete.booted
  = (Ok gr_update_noop,
     log [EvCall 0 (kwargs (Some Concrete.picture) None
                           "Portrait, 4K, high quality, cinematic"
                           5 864 1152 3.5 30 1.0 0.0 1.0);
          EvPrint "CUDA out of memory";
          EvGrErrorObject "An error occurred: CUDA out of memory"]
         Concrete.booted)
  /\ fst (on_click Concrete.failing_call Concrete.cli (Concrete.default_request 5)
                   Concrete.blank Concrete.booted)
     = Concrete.blank
  /\ count is_toast
           (trace (snd (on_click Concrete.failing_call Concrete.cli
                                 (Concrete.default_request 5)
                                 Concrete.blank Concrete.booted)))
     = count is_toast (trace Concrete.booted)
  /\ count is_toast (trace Concrete.booted) = 0%nat.
Proof.
  repeat split; vm_compute; reflexivity.
Qed.

(** C2 fails as stated: with seed 0 and a draw of [2^32] the resolved seed
    is 0, the pipeline is called with [seed=0], and the label reads
    ["Generated image, seed = 0"]. *)
Lemma zero_seed_label_reads_zero :
  fst (generate_image (Concrete.healthy (2 ^ 32)) Concrete.cli
                      (Some Concrete.picture) None
                      "Portrait, 4K, high quality, cinematic"
                      0 864 1152 3.5 30 1.0 0.0 1.0 false false "aes_stage2"
                      Concrete.booted)
  = Ok {| upd_value := Some Concrete.picture;
          upd_label := Some "Generated image, seed = 0" |}
  /\ trace (snd (generate_image (Concrete.healthy (2 ^ 32)) Concrete.cli
                                (Some Concrete.picture) None
                                "Portrait, 4K, high quality, cinematic"
                                0 864 1152 3.5 30 1.0 0.0 1.0 false false
                                "aes_stage2" Concrete.booted))
     = (trace Concrete.booted
          ++ [EvTorchSeed (2 ^ 32);
              EvCall 0 (kwargs (Some Concrete.picture) None
                               "Portrait, 4K, high quality, cinematic"
                               0 864 1152 3.5 30 1.0 0.0 1.0)])%list.
Proof.
  split; vm_compute; reflexivity.
Qed.

(** ** The theorems at work on the running server *)

(** Start-up followed by the same call: nothing more happens. *)
Lemma prepare_pipeline_idempotent_witness :
  snd (prepare_pipeline (Concrete.healthy 7) Concrete.cli "aes_stage2" false false
                        Concrete.booted)
  = Concrete.booted.
Proof.
  exact (proj1 (proj2 (@prepare_pipeline_idempotent
                         Concrete.image (Concrete.healthy 7) Concrete.cli
                         "aes_stage2" false false initial_world
                         (Ok tt) Concrete.booted eq_refl))).
Defined.



(** A failing [load_loras] at start-up leaves the requested record behind. *)
Lemma prepare_pipeline_not_atomic_witness :
  loaded_pipeline_config
    (snd (prepare_pipeline Concrete.failing_loras Concrete.cli "sim_stage1" true false
                           initial_world))
  = requested "sim_stage1" true false.
Proof.
  refine (proj1 (@prepare_pipeline_not_atomic
                   Concrete.image Concrete.failing_loras Concrete.cli
                   "sim_stage1" true false initial_world Concrete.missing_file
                   _ _ eq_refl)).
  discriminate.
Defined.

(** Seed 5 on the running server draws no random number. *)
Lemma nonzero_seed_is_passed_unchanged_witness :
  count is_torch_seed
        (trace (snd (generate_image (Concrete.healthy 7) Concrete.cli
                                    (Some Concrete.picture) None
                                    "Portrait, 4K, high quality, cinematic"
                                    5 864 1152 3.5 30 1.0 0.0 1.0 false false
                                    "aes_stage2" Concrete.booted)))
  = count is_torch_seed (trace Concrete.booted).
Proof.
  refine (proj1 (proj2 (@nonzero_seed_is_passed_unchanged
                          Concrete.image (Concrete.healthy 7) Concrete.cli
                          (Some Concrete.picture) None
                          "Portrait, 4K, high quality, cinematic"
                          864 1152 3.5 30 1.0 0.0 1.0 false false "aes_stage2"
                          5 Concrete.booted _ _ _ (surjective_pairing _)))).
  discriminate.
Defined.

(** Seed 0 with a draw of [2^32 + 9] resolves to 9. *)
Lemma zero_seed_is_drawn_and_masked_witness :
  0 <= Z.land (2 ^ 32 + 9) 0xFFFFFFFF <= 2 ^ 32 - 1.
Proof.
  exact (proj1 (@zero_seed_is_drawn_and_masked
                  Concrete.image (Concrete.healthy (2 ^ 32 + 9)) Concrete.cli
                  (Some Concrete.picture) None
                  "Portrait, 4K, high quality, cinematic"
                  864 1152 3.5 30 1.0 0.0 1.0 false false "aes_stage2"
                  Concrete.booted _ _ Concrete.booted
                  (surjective_pairing _) eq_refl)).
Defined.

(** With or without [--clip_encoder_path], start-up is the same. *)
Lemma clip_encoder_path_is_never_read_witness :
  startup (Concrete.healthy 7) Concrete.cli initial_world
  = startup (Concrete.healthy 7) Concrete.cli_clip initial_world.
Proof.
  exact (proj1 (proj2 (@clip_encoder_path_is_never_read
                         Concrete.image (Concrete.healthy 7)
                         Concrete.cli Concrete.cli_clip eq_refl))
               initial_world).
Defined.

(** ** Further runs on the concrete server *)

(** X1 at seed 5 when the call raises. *)
Lemma caught_failure_witness :
  generate_image Concrete.failing_call Concrete.cli (Some Concrete.picture) None
                 "Portrait, 4K, high quality, cinematic" 5 864 1152 3.5 30
                 1.0 0.0 1.0 false false "aes_stage2" Concrete.booted
  = (Ok gr_update_noop,
     log (EvCall 0 (kwargs (Some Concrete.picture) None
                           "Portrait, 4K, high quality, cinematic"
                           5 864 1152 3.5 30 1.0 0.0 1.0)
            :: caught_events Concrete.out_of_memory)
         Concrete.booted).
Proof.
  exact (proj1 (@caught_failure
                  Concrete.image Concrete.failing_call Concrete.cli
                  (Some Concrete.picture) None
                  "Portrait, 4K, high quality, cinematic"
                  864 1152 3.5 30 1.0 0.0 1.0 false false "aes_stage2"
                  5 Concrete.booted Concrete.booted Concrete.booted 5
                  {| obj_id := 0; obj_model_version := "aes_stage2" |}
                  Concrete.out_of_memory eq_refl eq_refl eq_refl eq_refl eq_refl)).
Defined.

(** X2 when the call is interrupted: the interrupt leaves the function. *)
Lemma generate_image_raises_iff_witness :
  generate_image Concrete.interrupted_call Concrete.cli (Some Concrete.picture) None
                 "Portrait, 4K, high quality, cinematic" 5 864 1152 3.5 30
                 1.0 0.0 1.0 false false "aes_stage2" Concrete.booted
  = (Raise Concrete.interrupt,
     log [EvCall 0 (kwargs (Some Concrete.picture) None
                           "Portrait, 4K, high quality, cinematic"
                           5 864 1152 3.5 30 1.0 0.0 1.0)]
         Concrete.booted).
Proof.
  exact (proj2 (@generate_image_raises_iff
                  Concrete.image Concrete.interrupted_call Concrete.cli
                  (Some Concrete.picture) None
                  "Portrait, 4K, high quality, cinematic"
                  864 1152 3.5 30 1.0 0.0 1.0 false false "aes_stage2"
                  5 Concrete.booted Concrete.interrupt
                  (log [EvCall 0 (kwargs (Some Concrete.picture) None
                                         "Portrait, 4K, high quality, cinematic"
                                         5 864 1152 3.5 30 1.0 0.0 1.0)]
                       Concrete.booted))
               (or_intror
                  (ex_intro _ Concrete.booted
                     (ex_intro _ {| obj_id := 0; obj_model_version := "aes_stage2" |}
                        (ex_intro _ 5
                           (ex_intro _ Concrete.booted
                              (conj eq_refl
                                 (conj eq_refl
                                    (conj eq_refl
                                       (conj eq_refl
                                          (conj eq_refl eq_refl))))))))))).
Defined.

(** X4 at seed 0 with a draw of [2^32 + 9]. *)
Lemma generate_image_update_shape_witness :
  {| upd_value := Some Concrete.picture;
     upd_label := Some "Generated image, seed = 9" |}
  = gr_update_noop
  \/ exists img s,
       {| upd_value := Some Concrete.picture;
          upd_label := Some "Generated image, seed = 9" |}
       = {| upd_value := Some img; upd_label := Some (seed_label s) |}
       /\ ((0 <> 0 /\ s = 0) \/ (0 = 0 /\ 0 <= s <= 2 ^ 32 - 1)).
Proof.
  exact (@generate_image_update_shape
           Concrete.image (Concrete.healthy (2 ^ 32 + 9)) Concrete.cli
           (Some Concrete.picture) None
           "Portrait, 4K, high quality, cinematic"
           864 1152 3.5 30 1.0 0.0 1.0 false false "aes_stage2"
           0 Concrete.booted _ _ eq_refl).
Defined.

(** X6 after a request with seed 5 on the running server. *)
Lemma repeated_request_skips_configuration_witness :
  prepare_pipeline (Concrete.healthy 7) Concrete.cli "aes_stage2" true false
    (snd (generate_image (Concrete.healthy 7) Concrete.cli (Some Concrete.picture)
                         None "Portrait, 4K, high quality, cinematic" 5 864 1152
                         3.5 30 1.0 0.0 1.0 true false "aes_stage2"
                         Concrete.booted))
  = (Ok tt,
     snd (generate_image (Concrete.healthy 7) Concrete.cli (Some Concrete.picture)
                         None "Portrait, 4K, high quality, cinematic" 5 864 1152
                         3.5 30 1.0 0.0 1.0 true false "aes_stage2"
                         Concrete.booted)).
Proof.
  refine (proj1 (@repeated_request_skips_configuration
                   Concrete.image (Concrete.healthy 7) Concrete.cli
                   (Some Concrete.picture) None
                   "Portrait, 4K, high quality, cinematic"
                   864 1152 3.5 30 1.0 0.0 1.0 true false "aes_stage2"
                   5 0 Concrete.booted
                   {| upd_value := Some Concrete.picture;
                      upd_label := Some "Generated image, seed = 5" |}
                   _ _)).
  vm_compute. reflexivity.
Defined.

(** X7 after a start-up in which [load_loras] raised. *)
Lemma failed_adapter_load_is_not_retried_witness :
  prepare_pipeline Concrete.failing_loras Concrete.cli "sim_stage1" true true
                   Concrete.half_loaded
  = (Ok tt, Concrete.half_loaded).
Proof.
  refine (proj1 (@failed_adapter_load_is_not_retried
                   Concrete.image Concrete.failing_loras Concrete.cli
                   (Some Concrete.picture) None
                   "Portrait, 4K, high quality, cinematic"
                   864 1152 3.5 30 1.0 0.0 1.0 true true "sim_stage1"
                   5 initial_world Concrete.missing_file Concrete.half_loaded
                   {| obj_id := 0; obj_model_version := "sim_stage1" |}
                   _ eq_refl eq_refl)).
  discriminate.
Defined.

(** X8 on the crashed server. *)
Lemma unbound_pipeline_is_absorbing_witness :
  generate_image (Concrete.healthy 7) Concrete.cli (Some Concrete.picture) None
                 "Portrait, 4K, high quality, cinematic" 5 864 1152 3.5 30
                 1.0 0.0 1.0 false false "aes_stage2" Concrete.crashed
  = (Raise name_error, Concrete.crashed).
Proof.
  exact (proj2 (@unbound_pipeline_is_absorbing
                  Concrete.image (Concrete.healthy 7) Concrete.cli
                  (Some Concrete.picture) None
                  "Portrait, 4K, high quality, cinematic"
                  864 1152 3.5 30 1.0 0.0 1.0 false false "aes_stage2"
                  5 Concrete.crashed eq_refl)).
Defined.

(** X9 at start-up. *)
Lemma prepare_pipeline_ensures_witness :
  loaded_pipeline_config Concrete.booted = requested "aes_stage2" false false.
Proof.
  exact (proj1 (proj2 (@prepare_pipeline_ensures
                         Concrete.image (Concrete.healthy 7) Concrete.cli
                         "aes_stage2" false false initial_world Concrete.booted
                         I eq_refl))).
Defined.

(** X10 at start-up. *)
Lemma prepare_pipeline_shapes_witness :
  exists es,
    trace Concrete.booted = (trace (@initial_world Concrete.image) ++ es)%list
    /\ ((es = [] /\ (Ok tt = Ok tt \/ Ok tt = Raise name_error))
        \/ (es = rebuild_events Concrete.cli "aes_stage2"
            /\ exists e, Ok tt = Raise e)
        \/ (exists pre o,
               (pre = [] \/ pre = rebuild_events Concrete.cli "aes_stage2")
               /\ pipeline Concrete.booted = BoundObj o
               /\ ((es = (pre ++ [delete_event o])%list /\ exists e, Ok tt = Raise e)
                   \/ es = (pre ++ [delete_event o; load_event o false false])%list))).
Proof.
  exact (@prepare_pipeline_shapes
           Concrete.image (Concrete.healthy 7) Concrete.cli
           "aes_stage2" false false initial_world (Ok tt) Concrete.booted eq_refl).
Defined.

(** X11 on the running server when the constructor raises. *)
Lemma failed_rebuild_unbinds_witness :
  exists w1,
    prepare_pipeline Concrete.failing_construct Concrete.cli "sim_stage1" false false
                     Concrete.booted
    = (Raise Concrete.missing_file, w1)
    /\ pipeline w1 = Unbound
    /\ loaded_pipeline_config w1 = requested "sim_stage1" false false
    /\ trace w1 = (trace Concrete.booted
                     ++ rebuild_events Concrete.cli "sim_stage1")%list
    /\ next_id w1 = next_id Concrete.booted.
Proof.
  refine (@failed_rebuild_unbinds
            Concrete.image Concrete.failing_construct Concrete.cli
            "sim_stage1" false false Concrete.booted Concrete.missing_file
            (conj eq_refl (le_n 1))
            (or_intror (ex_intro _ {| obj_id := 0; obj_model_version := "aes_stage2" |}
                                 (conj eq_refl _)))
            eq_refl).
  discriminate.
Defined.

(** X12 at module load. *)
Lemma none_always_builds_witness :
  exists rest,
    trace (snd (prepare_pipeline (Concrete.healthy 7) Concrete.cli "aes_stage2"
                                 false false initial_world))
    = (trace (@initial_world Concrete.image)
         ++ rebuild_events Concrete.cli "aes_stage2" ++ rest)%list.
Proof.
  exact (@none_always_builds
           Concrete.image (Concrete.healthy 7) Concrete.cli
           "aes_stage2" false false initial_world eq_refl).
Defined.

(** X14: realism on, then off again. *)
Lemma toggle_round_trip_witness :
  pipeline
    (snd (prepare_pipeline (Concrete.healthy 7) Concrete.cli "aes_stage2" false false
            (snd (prepare_pipeline (Concrete.healthy 7) Concrete.cli "aes_stage2"
                                   true false Concrete.booted))))
  = BoundObj {| obj_id := 0; obj_model_version := "aes_stage2" |}.
Proof.
  refine (proj1 (@toggle_round_trip
                   Concrete.image (Concrete.healthy 7) Concrete.cli
                   "aes_stage2" false false true false
                   {| obj_id := 0; obj_model_version := "aes_stage2" |}
                   Concrete.booted
                   (snd (prepare_pipeline (Concrete.healthy 7) Concrete.cli
                                          "aes_stage2" true false Concrete.booted))
                   (snd (prepare_pipeline (Concrete.healthy 7) Concrete.cli
                           "aes_stage2" false false
                           (snd (prepare_pipeline (Concrete.healthy 7) Concrete.cli
                                                  "aes_stage2" true false
                                                  Concrete.booted))))
                   eq_refl (conj eq_refl (le_n 1)) eq_refl _ _ _)).
  - discriminate.
  - vm_compute. reflexivity.
  - vm_compute. reflexivity.
Defined.

(** X15: to the other version and back. *)
Lemma version_round_trip_witness :
  next_id
    (snd (prepare_pipeline (Concrete.healthy 7) Concrete.cli "aes_stage2" false false
            (snd (prepare_pipeline (Concrete.healthy 7) Concrete.cli "sim_stage1"
                                   false false Concrete.booted))))
  = S (S (next_id Concrete.booted)).
Proof.
  refine (proj1 (proj2 (proj2
            (@version_round_trip
               Concrete.image (Concrete.healthy 7) Concrete.cli
               "sim_stage1" false false
               {| obj_id := 0; obj_model_version := "aes_stage2" |}
               Concrete.booted
               (snd (prepare_pipeline (Concrete.healthy 7) Concrete.cli
                                      "sim_stage1" false false Concrete.booted))
               (snd (prepare_pipeline (Concrete.healthy 7) Concrete.cli
                       "aes_stage2" false false
                       (snd (prepare_pipeline (Concrete.healthy 7) Concrete.cli
                                              "sim_stage1" false false
                                              Concrete.booted))))
               eq_refl (conj eq_refl (le_n 1)) _ _ _)))).
  - discriminate.
  - vm_compute. reflexivity.
  - vm_compute. reflexivity.
Defined.

(** X16 right after start-up. *)
Lemma serving_invariant_witness :
  consistent Concrete.booted /\ pipeline Concrete.booted <> BoundNone.
Proof.
  exact (@serving_invariant
           Concrete.image (Concrete.healthy 7) Concrete.cli Concrete.booted
           (@serving_boot Concrete.image (Concrete.healthy 7) Concrete.cli
                          Concrete.booted eq_refl)).
Defined.

(** X17 with a draw of [2^32 + 9]. *)
Lemma resolve_seed_spec_witness :
  resolve_seed (Concrete.healthy (2 ^ 32 + 9)) 0 Concrete.booted
  = (Ok ((2 ^ 32 + 9) mod 2 ^ 32), log [EvTorchSeed (2 ^ 32 + 9)] Concrete.booted).
Proof.
  exact (proj1 (proj1 (@resolve_seed_spec
                         Concrete.image (Concrete.healthy (2 ^ 32 + 9)) 0
                         Concrete.booted)
                      eq_refl)).
Defined.
